(** * CoreRag: the identity/session synchronisation engine and the query dispatcher

    A shallow embedding of [src/contexts/AuthContext.jsx] (the [AuthProvider]
    component: [loadUserProfile], the [onAuthStateChange] handler, [signUp],
    [refreshProfile]) and of [src/lib/supabaseClient.js] ([checkEmailExists],
    [callRagBrain]).

    JavaScript values are an inductive type, asynchronous functions are
    programs of a small resumption monad whose suspension points are exactly
    the [await]s of the source, and the component's React state, refs and
    closure variables form one record that the programs read and write. *)

From Stdlib Require Import List NArith ZArith QArith Bool String Ascii Lia.
Import ListNotations.
Local Open Scope string_scope.
Local Open Scope list_scope.
Local Open Scope bool_scope.
Local Open Scope nat_scope.

Set Implicit Arguments.
Local Set Warnings "-register-all".

(* ================================================================== *)
(** * JavaScript strings *)
(* ================================================================== *)

Module JsString.

(** A JavaScript string is a sequence of UTF-16 code units. *)
Definition jsstring := list N.

(** An ASCII literal of the source, one code unit per character. *)
Definition lit (s : string) : jsstring :=
  map N_of_ascii (list_ascii_of_string s).

Fixpoint eqb (a b : jsstring) : bool :=
  match a, b with
  | [], [] => true
  | x :: a', y :: b' => N.eqb x y && eqb a' b'
  | _, _ => false
  end.

(** [WhiteSpace] and [LineTerminator] of ECMAScript, the code units that
    [String.prototype.trim] strips. *)
Definition isWhiteSpace (c : N) : bool :=
  ((9 <=? c) && (c <=? 13) ||
   (c =? 32) || (c =? 160) || (c =? 5760) ||
   (8192 <=? c) && (c <=? 8202) ||
   (c =? 8232) || (c =? 8233) || (c =? 8239) || (c =? 8287) ||
   (c =? 12288) || (c =? 65279))%N.

Fixpoint trimStart (s : jsstring) : jsstring :=
  match s with
  | [] => []
  | c :: s' => if isWhiteSpace c then trimStart s' else s
  end.

Definition trimEnd (s : jsstring) : jsstring := rev (trimStart (rev s)).

(** [s.trim()] *)
Definition trim (s : jsstring) : jsstring := trimEnd (trimStart s).

Fixpoint startsWith (s p : jsstring) : bool :=
  match p, s with
  | [], _ => true
  | _ :: _, [] => false
  | y :: p', x :: s' => N.eqb x y && startsWith s' p'
  end.

(** [s.includes(p)] *)
Fixpoint includes (s p : jsstring) : bool :=
  startsWith s p ||
  match s with
  | [] => false
  | _ :: s' => includes s' p
  end.

(** [s.toLowerCase()] on the ASCII letters; other code units are kept.  The
    keywords the source searches for are ASCII. *)
Definition lowerUnit (c : N) : N :=
  if ((65 <=? c) && (c <=? 90))%N then (c + 32)%N else c.

Definition toLowerCase (s : jsstring) : jsstring := map lowerUnit s.

End JsString.

Import JsString.

(* ================================================================== *)
(** * JavaScript values *)
(* ================================================================== *)

(** Numbers: the finite ones as rationals (no arithmetic is done on them by
    the code below, they are only tested and passed on), plus the three
    special values.  [-0] is identified with [0]; both are falsy. *)
Inductive number : Type :=
| Num (q : Q)
| NaN
| Infinity
| NegInfinity.

(** Objects are association lists in insertion order; [isError] tells the
    instances of [Error] (what [instanceof Error] tests) from other objects. *)
Inductive jsval : Type :=
| JUndefined
| JNull
| JBool (b : bool)
| JNum (n : number)
| JStr (s : jsstring)
| JArr (items : list jsval)
| JObj (isError : bool) (fields : list (jsstring * jsval)).

Definition JInt (z : Z) : jsval := JNum (Num (inject_Z z)).
Definition str (s : string) : jsval := JStr (lit s).

(** An object literal [{ k1: v1, ... }]. *)
Definition obj (fields : list (string * jsval)) : jsval :=
  JObj false (map (fun kv => (lit (fst kv), snd kv)) fields).

(** [new Error(message)] for a string [message]. *)
Definition newError (message : jsstring) : jsval :=
  JObj true [(lit "message", JStr message)].

(** The [TypeError] the engine raises; its message text is the engine's. *)
Definition TypeError (detail : string) : jsval :=
  JObj true [(lit "message", str detail); (lit "name", str "TypeError")].

(** ToBoolean *)
Definition truthy (v : jsval) : bool :=
  match v with
  | JUndefined | JNull => false
  | JBool b => b
  | JNum (Num q) => negb (Qeq_bool q 0)
  | JNum NaN => false
  | JNum _ => true
  | JStr s => match s with [] => false | _ => true end
  | JArr _ | JObj _ _ => true
  end.

Definition num_eqb (a b : number) : bool :=
  match a, b with
  | Num p, Num q => Qeq_bool p q
  | Infinity, Infinity | NegInfinity, NegInfinity => true
  | _, _ => false
  end.

(** [a === b] where one side is a primitive.  (Two objects are compared by
    reference, which the source never does.) *)
Definition strict_eq (a b : jsval) : bool :=
  match a, b with
  | JUndefined, JUndefined | JNull, JNull => true
  | JBool x, JBool y => Bool.eqb x y
  | JNum x, JNum y => num_eqb x y
  | JStr x, JStr y => JsString.eqb x y
  | _, _ => false
  end.

(** [a || b] and [a ?? b] on values already computed. *)
Definition or_else (a b : jsval) : jsval := if truthy a then a else b.

Definition nullish (a b : jsval) : jsval :=
  match a with
  | JUndefined | JNull => b
  | _ => a
  end.

Fixpoint lookup (fields : list (jsstring * jsval)) (k : jsstring) : jsval :=
  match fields with
  | [] => JUndefined
  | (k', v) :: rest => if JsString.eqb k' k then v else lookup rest k
  end.

(** [v.k] for a value that is neither [null] nor [undefined]: the field of
    an object, [undefined] for the property names used here on any other
    value. *)
Definition field (v : jsval) (k : string) : jsval :=
  match v with
  | JObj _ fs => lookup fs (lit k)
  | _ => JUndefined
  end.

Definition is_nullish (v : jsval) : bool :=
  match v with
  | JUndefined | JNull => true
  | _ => false
  end.

Definition instanceofError (v : jsval) : bool :=
  match v with
  | JObj true _ => true
  | _ => false
  end.

(* ================================================================== *)
(** * The component's mutable state *)
(* ================================================================== *)

(** Everything the asynchronous functions of [AuthProvider] read or write
    between two suspension points: the six [useState] cells, the three
    [useRef] flags, the [mounted] variable of the effect, the callbacks
    handed to [setTimeout] and not yet run (each is the closure of line 108,
    determined by the [newSession] it captured, with its delay), and what
    was written with [console.error]. *)
Record Store : Type := mkStore {
  user : jsval;
  session : jsval;
  profile : jsval;
  organization : jsval;
  loading : bool;
  error : jsval;
  profileLoadedRef : bool;
  loadingProfileRef : bool;
  signingUpRef : bool;
  mounted : bool;
  timers : list (jsval * Z);
  console : list (list jsval)
}.

(** The state of a freshly rendered [AuthProvider] (lines 16 to 25), before
    its effect has run. *)
Definition initialStore : Store :=
  mkStore JNull JNull JNull JNull true JNull false false false false [] [].

Definition setUser (v : jsval) (s : Store) : Store :=
  mkStore v (session s) (profile s) (organization s) (loading s) (error s)
    (profileLoadedRef s) (loadingProfileRef s) (signingUpRef s) (mounted s)
    (timers s) (console s).

Definition setSession (v : jsval) (s : Store) : Store :=
  mkStore (user s) v (profile s) (organization s) (loading s) (error s)
    (profileLoadedRef s) (loadingProfileRef s) (signingUpRef s) (mounted s)
    (timers s) (console s).

Definition setProfile (v : jsval) (s : Store) : Store :=
  mkStore (user s) (session s) v (organization s) (loading s) (error s)
    (profileLoadedRef s) (loadingProfileRef s) (signingUpRef s) (mounted s)
    (timers s) (console s).

Definition setOrganization (v : jsval) (s : Store) : Store :=
  mkStore (user s) (session s) (profile s) v (loading s) (error s)
    (profileLoadedRef s) (loadingProfileRef s) (signingUpRef s) (mounted s)
    (timers s) (console s).

Definition setLoading (b : bool) (s : Store) : Store :=
  mkStore (user s) (session s) (profile s) (organization s) b (error s)
    (profileLoadedRef s) (loadingProfileRef s) (signingUpRef s) (mounted s)
    (timers s) (console s).

Definition setError (v : jsval) (s : Store) : Store :=
  mkStore (user s) (session s) (profile s) (organization s) (loading s) v
    (profileLoadedRef s) (loadingProfileRef s) (signingUpRef s) (mounted s)
    (timers s) (console s).

Definition set_profileLoadedRef (b : bool) (s : Store) : Store :=
  mkStore (user s) (session s) (profile s) (organization s) (loading s) (error s)
    b (loadingProfileRef s) (signingUpRef s) (mounted s)
    (timers s) (console s).

Definition set_loadingProfileRef (b : bool) (s : Store) : Store :=
  mkStore (user s) (session s) (profile s) (organization s) (loading s) (error s)
    (profileLoadedRef s) b (signingUpRef s) (mounted s)
    (timers s) (console s).

Definition set_signingUpRef (b : bool) (s : Store) : Store :=
  mkStore (user s) (session s) (profile s) (organization s) (loading s) (error s)
    (profileLoadedRef s) (loadingProfileRef s) b (mounted s)
    (timers s) (console s).

Definition set_mounted (b : bool) (s : Store) : Store :=
  mkStore (user s) (session s) (profile s) (organization s) (loading s) (error s)
    (profileLoadedRef s) (loadingProfileRef s) (signingUpRef s) b
    (timers s) (console s).

Definition set_timers (t : list (jsval * Z)) (s : Store) : Store :=
  mkStore (user s) (session s) (profile s) (organization s) (loading s) (error s)
    (profileLoadedRef s) (loadingProfileRef s) (signingUpRef s) (mounted s)
    t (console s).

Definition console_error (args : list jsval) (s : Store) : Store :=
  mkStore (user s) (session s) (profile s) (organization s) (loading s) (error s)
    (profileLoadedRef s) (loadingProfileRef s) (signingUpRef s) (mounted s)
    (timers s) (console s ++ [args]).

(* ================================================================== *)
(** * Asynchronous programs *)
(* ================================================================== *)

(** What the code awaits: the operations of the identity provider, of the
    data store and of the network, whose results come from outside. *)
Inductive Request : Type :=
| AuthGetSession                                   (* supabase.auth.getSession() *)
| FromSelectSingle (table : jsstring) (id : jsval) (* supabase.from(t).select('*').eq('id', v).single() *)
| Rpc (fn : jsstring) (args : jsval)               (* supabase.rpc(fn, args) *)
| AuthSignUp (credentials : jsval)                 (* supabase.auth.signUp(credentials) *)
| Fetch (url : jsstring) (init : jsval)            (* fetch(url, init) *)
| ResponseJson (response : jsval)                  (* response.json() *)
| Tick.                                            (* a promise already settled: resumed on a later microtask *)

(** How an awaited promise settles. *)
Inductive Settled : Type :=
| Resolved (v : jsval)
| Rejected (e : jsval).

(** A program runs on the store until it finishes or reaches an [await],
    where it hands the rest of itself over as a continuation. *)
Inductive Prog (A : Type) : Type :=
| Ret (a : A)
| Get (k : Store -> Prog A)
| Put (s : Store) (k : Prog A)
| Await (r : Request) (k : Settled -> Prog A).

Arguments Ret {A} a.
Arguments Get {A} k.
Arguments Put {A} s k.
Arguments Await {A} r k.

Fixpoint bind {A B : Type} (p : Prog A) (f : A -> Prog B) : Prog B :=
  match p with
  | Ret a => f a
  | Get k => Get (fun s => bind (k s) f)
  | Put s k => Put s (bind k f)
  | Await r k => Await r (fun x => bind (k x) f)
  end.

(** How a statement completes: normally, by [return], or by [throw]. *)
Inductive completion (A : Type) : Type :=
| Normal (a : A)
| Return (v : jsval)
| Throw (e : jsval).

Arguments Normal {A} a.
Arguments Return {A} v.
Arguments Throw {A} e.

Definition Stmt (A : Type) : Type := Prog (completion A).

Definition ret {A : Type} (a : A) : Stmt A := Ret (Normal a).
Definition return_ {A : Type} (v : jsval) : Stmt A := Ret (Return v).
Definition throw {A : Type} (e : jsval) : Stmt A := Ret (Throw e).
Definition skip : Stmt unit := ret tt.

(** Sequencing: an abrupt completion skips what follows. *)
Definition seq {A B : Type} (m : Stmt A) (f : A -> Stmt B) : Stmt B :=
  bind m (fun c =>
    match c with
    | Normal a => f a
    | Return v => Ret (Return v)
    | Throw e => Ret (Throw e)
    end).

Declare Scope js_scope.
Delimit Scope js_scope with js.
Notation "'let*' x := m 'in' k" := (seq m (fun x => k))
  (at level 10, x name, m at level 200, k at level 200) : js_scope.
Notation "m ;; k" := (seq m (fun _ => k))
  (at level 100, k at level 200, right associativity) : js_scope.
Local Open Scope js_scope.

Definition get : Stmt Store := Get (fun s => Ret (Normal s)).

Definition modify (f : Store -> Store) : Stmt unit :=
  Get (fun s => Put (f s) (Ret (Normal tt))).

(** [await] of an operation of the outside world: a rejection is thrown. *)
Definition await (r : Request) : Stmt jsval :=
  Await r (fun x =>
    match x with
    | Resolved v => Ret (Normal v)
    | Rejected e => Ret (Throw e)
    end).

(** [v.k], which throws when [v] is [null] or [undefined]; also the
    destructuring [const { k: x } = v]. *)
Definition prop (v : jsval) (k : string) : Stmt jsval :=
  if is_nullish v then throw (TypeError "Cannot read properties of null or undefined")
  else ret (field v k).

(** [v?.k] *)
Definition opt_prop (v : jsval) (k : string) : jsval :=
  if is_nullish v then JUndefined else field v k.

(** [try { body } catch (e) { handler }] *)
Definition try_catch {A : Type} (body : Stmt A) (handler : jsval -> Stmt A) : Stmt A :=
  bind body (fun c =>
    match c with
    | Throw e => handler e
    | _ => Ret c
    end).

(** [try { body } finally { fin }]: [fin] runs however [body] completes, and
    the completion of [body] stands unless [fin] itself completes abruptly. *)
Definition try_finally {A : Type} (body : Stmt A) (fin : Stmt unit) : Stmt A :=
  bind body (fun c =>
    bind fin (fun c' =>
      match c' with
      | Normal _ => Ret c
      | Return v => Ret (Return v)
      | Throw e => Ret (Throw e)
      end)).

Definition try_catch_finally {A : Type}
    (body : Stmt A) (handler : jsval -> Stmt A) (fin : Stmt unit) : Stmt A :=
  try_finally (try_catch body handler) fin.

(** The body of an [async] function: its promise resolves with the returned
    value ([undefined] when the body falls off its end) and rejects with
    what the body throws. *)
Definition async (body : Stmt unit) : Prog Settled :=
  bind body (fun c =>
    Ret match c with
        | Normal _ => Resolved JUndefined
        | Return v => Resolved v
        | Throw e => Rejected e
        end).

(** [await f(...)] for an [async] function of this program: the callee runs
    in place, its suspension points become the caller's, and once its promise
    has settled the caller resumes on a later microtask. *)
Definition await_call (callee : Prog Settled) : Stmt jsval :=
  bind callee (fun r =>
    Await Tick (fun _ =>
      match r with
      | Resolved v => Ret (Normal v)
      | Rejected e => Ret (Throw e)
      end)).

(** ** Running a program *)

(** The state of a call after one synchronous stretch. *)
Inductive Susp (A : Type) : Type :=
| Done (a : A)
| Blocked (r : Request) (k : Settled -> Prog A).

Arguments Done {A} a.
Arguments Blocked {A} r k.

(** One synchronous stretch: up to the end or to the next [await]. *)
Fixpoint run {A : Type} (p : Prog A) (s : Store) : Store * Susp A :=
  match p with
  | Ret a => (s, Done a)
  | Get k => run (k s) s
  | Put s' k => run k s'
  | Await r k => (s, Blocked r k)
  end.

(** The outside world as seen from one call: at its [n]-th suspension the
    awaited request settles some way, and the store may have been changed in
    the meantime by whatever else ran. *)
Definition World : Type := nat -> Request -> Store -> Settled * Store.

Record Outcome (A : Type) : Type := mkOutcome {
  final : Store;
  result : A;
  sent : list (Request * Settled);
  steps : nat
}.

(** A whole call, from its start to its end, in a given world; [sent] lists
    the requests it awaited and how each settled, in order. *)
Fixpoint exec {A : Type} (w : World) (p : Prog A) (s : Store) (n : nat) : Outcome A :=
  match p with
  | Ret a => mkOutcome s a [] n
  | Get k => exec w (k s) s n
  | Put s' k => exec w k s' n
  | Await r k =>
      let o := exec w (k (fst (w n r s))) (snd (w n r s)) (S n) in
      mkOutcome (final o) (result o) ((r, fst (w n r s)) :: sent o) (steps o)
  end.

(** A block that awaits nothing and only updates the store by [f]. *)
Definition updates_store (w : World) (fin : Stmt unit) (f : Store -> Store) : Prop :=
  forall s n, exec w fin s n = mkOutcome (f s) (Normal tt) [] n.

(** The requests that go over the network (everything but the microtask
    tick). *)
Definition is_network (r : Request) : bool :=
  match r with
  | Tick => false
  | _ => true
  end.

Definition is_fetch (r : Request) : bool :=
  match r with
  | Fetch _ _ => true
  | _ => false
  end.

Definition is_signUp_request (r : Request) : bool :=
  match r with
  | AuthSignUp _ => true
  | _ => false
  end.

(** The requests of a call, without their settlements. *)
Definition requests {A : Type} (o : Outcome A) : list Request := map fst (sent o).

(* ================================================================== *)
(** * The Supabase client module (src/lib/supabaseClient.js) *)
(* ================================================================== *)

Module SupabaseClient.

(** [checkEmailExists], lines 408 to 422 of the listing. *)
Definition checkEmailExists (email : jsval) : Prog Settled :=
  async (
    (if negb (truthy email) then return_ (JBool false) else skip) ;;
    try_catch
      (let* r := await (Rpc (lit "check_email_exists")
                            (obj [("email_to_check", email)])) in
       let* data := prop r "data" in
       let* error := prop r "error" in
       (if truthy error then return_ (JBool false) else skip) ;;
       return_ (JBool (strict_eq data (JBool true) ||
                       strict_eq data (str "true") ||
                       strict_eq data (JInt 1))))
      (fun err => return_ (JBool false))).

(** The messages of the errors [callRagBrain] throws. *)
Definition msg_unauthenticated : jsstring :=
  lit "Utilisateur non authentifi" ++ [233%N].
Definition msg_empty_query : jsstring :=
  lit "La requ" ++ [234%N] ++ lit "te ne peut pas " ++ [234%N] ++ lit "tre vide".
Definition msg_vertical_required : jsstring :=
  lit "L'ID de la verticale est requis".
Definition msg_unknown_edge_error : jsstring :=
  lit "Erreur inconnue de l'Edge Function".

(** [v.trim()]: a value without that method cannot be called. *)
Definition call_trim (v : jsval) : Stmt jsval :=
  match v with
  | JStr s => ret (JStr (trim s))
  | _ => throw (TypeError "trim is not a function")
  end.

(** [!v || v.trim() === ''] *)
Definition blank (v : jsval) : Stmt bool :=
  if negb (truthy v) then ret true
  else let* t := call_trim v in ret (strict_eq t (JStr [])).

Section CallRagBrain.

(** The two settings read from the environment at lines 373 and 374, and
    the two conversions of the language the function relies on: ToString
    on values that are not strings, and [JSON.stringify]. *)
Variable supabaseUrl supabaseAnonKey : jsstring.
Variable ToString : jsval -> jsstring.
Variable JSON_stringify : jsval -> jsstring.

(** [String(v)], also what a template literal does to [v]. *)
Definition String_ (v : jsval) : jsstring :=
  match v with
  | JStr s => s
  | _ => ToString v
  end.

(** [new Error(v)] for any value [v]. *)
Definition Error_ (v : jsval) : jsval :=
  match v with
  | JUndefined => newError []
  | _ => newError (String_ v)
  end.

(** The body sent to the Edge Function, lines 449 to 454. *)
Definition requestBody (query verticalId options : jsval) : Stmt jsval :=
  let* q := call_trim query in
  let* v := call_trim verticalId in
  let* matchThreshold := prop options "matchThreshold" in
  let* matchCount := prop options "matchCount" in
  ret (obj [("query", q);
            ("vertical_id", v);
            ("match_threshold", or_else matchThreshold (JNum (Num (1 # 2))));
            ("match_count", or_else matchCount (JInt 5))]).

(** The second argument of [fetch], lines 459 to 467. *)
Definition fetchInit (session body : jsval) : jsval :=
  obj [("method", str "POST");
       ("headers",
        obj [("Authorization",
              JStr (lit "Bearer " ++ String_ (field session "access_token")));
             ("apikey", JStr supabaseAnonKey);
             ("Content-Type", str "application/json")]);
       ("body", JStr (JSON_stringify body))].

(** [callRagBrain], lines 431 to 498; [options] is [{}] when the caller
    leaves it out. *)
Definition callRagBrain (query verticalId options : jsval) : Prog Settled :=
  let options := match options with JUndefined => obj [] | _ => options end in
  async (
    try_catch
      (let* r := await AuthGetSession in
       let* data := prop r "data" in
       let* session := prop data "session" in
       (if negb (truthy session)
        then throw (newError msg_unauthenticated) else skip) ;;
       let* noQuery := blank query in
       (if noQuery then throw (newError msg_empty_query) else skip) ;;
       let* noVertical := blank verticalId in
       (if noVertical then throw (newError msg_vertical_required) else skip) ;;
       let* body := requestBody query verticalId options in
       let* response :=
         await (Fetch (supabaseUrl ++ lit "/functions/v1/rag-brain")
                      (fetchInit session body)) in
       (if is_nullish response
        then throw (TypeError "Cannot read properties of null or undefined")
        else skip) ;;
       let* data := await (ResponseJson response) in
       (if negb (truthy (field response "ok")) then
          let* e := prop data "error" in
          throw (Error_ (or_else e (JStr (lit "Erreur HTTP: " ++
                                          String_ (field response "status")))))
        else skip) ;;
       let* success := prop data "success" in
       (if negb (truthy success) then
          throw (Error_ (or_else (field data "error")
                                 (JStr msg_unknown_edge_error)))
        else skip) ;;
       return_ (obj [("data",
                      obj [("answer", field data "answer");
                           ("sources", or_else (field data "sources") (JArr []));
                           ("processingTime", field data "processing_time_ms")]);
                     ("error", JNull)]))
      (fun err =>
         modify (console_error [str "Erreur lors de l'appel RAG:"; err]) ;;
         return_ (obj [("data", JNull);
                       ("error", if instanceofError err then err
                                 else newError (String_ err))]))).

End CallRagBrain.

End SupabaseClient.

(* ================================================================== *)
(** * AuthProvider (src/contexts/AuthContext.jsx) *)
(* ================================================================== *)

Module AuthContext.

(** [loadUserProfile], lines 26 to 71. *)
Definition loadUserProfile (userId : jsval) : Prog Settled :=
  async (
    let* s := get in
    (if loadingProfileRef s then return_ JUndefined else skip) ;;
    modify (set_loadingProfileRef true) ;;
    try_catch_finally
      (let* r := await (FromSelectSingle (lit "profiles") userId) in
       let* profileData := prop r "data" in
       let* profileError := prop r "error" in
       (if truthy profileError then
          if strict_eq (field profileError "code") (str "PGRST116") then
            modify (setProfile JNull) ;;
            modify (setOrganization JNull) ;;
            modify (set_profileLoadedRef true) ;;
            return_ JUndefined
          else throw profileError
        else skip) ;;
       modify (setProfile profileData) ;;
       (if truthy (opt_prop profileData "org_id") then
          let* r' := await (FromSelectSingle (lit "organizations")
                                             (field profileData "org_id")) in
          let* orgData := prop r' "data" in
          let* orgError := prop r' "error" in
          if negb (truthy orgError) then modify (setOrganization orgData) else skip
        else skip) ;;
       modify (set_profileLoadedRef true))
      (fun err =>
         let* message := prop err "message" in
         modify (setError message) ;;
         modify (set_profileLoadedRef true))
      (modify (set_loadingProfileRef false))).

(** [initSession], lines 76 to 93. *)
Definition initSession : Prog Settled :=
  async (
    try_catch_finally
      (let* r := await AuthGetSession in
       let* data := prop r "data" in
       let* initialSession := prop data "session" in
       let* s := get in
       (if negb (mounted s) then return_ JUndefined else skip) ;;
       modify (setSession initialSession) ;;
       modify (setUser (nullish (opt_prop initialSession "user") JNull)) ;;
       if truthy (opt_prop initialSession "user") then
         let* _ := await_call (loadUserProfile
                                 (field (field initialSession "user") "id")) in
         skip
       else skip)
      (fun err =>
         let* s := get in
         if mounted s then
           let* message := prop err "message" in modify (setError message)
         else skip)
      (let* s := get in
       if mounted s then modify (setLoading false) else skip)).

(** The callback given to [setTimeout] at line 108; [newSession] is the
    variable it closes over. *)
Definition signedInTimeout (newSession : jsval) : Prog Settled :=
  async (
    let* s := get in
    if mounted s then
      let* u := prop newSession "user" in
      let* id := prop u "id" in
      let* _ := await_call (loadUserProfile id) in
      modify (setLoading false)
    else skip).

(** [setTimeout(callback, delay)] with the callback of line 108. *)
Definition setTimeout (newSession : jsval) (delay : Z) : Stmt unit :=
  modify (fun s => set_timers (timers s ++ [(newSession, delay)]) s).

(** The handler given to [supabase.auth.onAuthStateChange], lines 98 to 123. *)
Definition onAuthStateChange (event newSession : jsval) : Prog Settled :=
  async (
    let* s := get in
    (if negb (mounted s) then return_ JUndefined else skip) ;;
    modify (setSession newSession) ;;
    modify (setUser (nullish (opt_prop newSession "user") JNull)) ;;
    if strict_eq event (str "SIGNED_IN") && truthy (opt_prop newSession "user") then
      modify (set_profileLoadedRef false) ;;
      modify (set_loadingProfileRef false) ;;
      setTimeout newSession 1000
    else if strict_eq event (str "SIGNED_OUT") then
      modify (setProfile JNull) ;;
      modify (setOrganization JNull) ;;
      modify (set_profileLoadedRef false) ;;
      modify (set_loadingProfileRef false) ;;
      modify (setLoading false)
    else
      modify (setLoading false)).

(** The effect of lines 73 to 130 when the component mounts (the
    subscription itself is the environment calling [onAuthStateChange]), and
    its cleanup. *)
Definition mount : Prog Settled :=
  bind (modify (set_mounted true)) (fun _ => initSession).

Definition unmount : Prog Settled :=
  async (modify (set_mounted false)).

(** [refreshProfile], lines 288 to 294. *)
Definition refreshProfile : Prog Settled :=
  async (
    let* s := get in
    if truthy (opt_prop (user s) "id") then
      modify (set_profileLoadedRef false) ;;
      modify (set_loadingProfileRef false) ;;
      let* _ := await_call (loadUserProfile (field (user s) "id")) in
      skip
    else skip).

(** The messages of the errors [signUp] returns. *)
Definition msg_signup_in_progress : jsstring :=
  lit "Une inscription est d" ++ [233%N] ++ lit "j" ++ [224%N] ++ lit " en cours.".
Definition msg_email_exists : jsstring :=
  lit "Un compte existe d" ++ [233%N] ++ lit "j" ++ [224%N] ++
  lit " avec cet email. Veuillez vous connecter ou utiliser la r" ++ [233%N] ++
  lit "initialisation de mot de passe.".
Definition msg_unexpected : jsstring :=
  lit "Une erreur inattendue s'est produite.".

(** [v.toLowerCase()]: a value without that method cannot be called. *)
Definition call_toLowerCase (v : jsval) : Stmt jsstring :=
  match v with
  | JStr s => ret (toLowerCase s)
  | _ => throw (TypeError "toLowerCase is not a function")
  end.

(** [error.message || ''] and [error.status || error.code || ''], lines 173
    and 174. *)
Definition errorMessage (error : jsval) : jsval :=
  or_else (field error "message") (JStr []).

Definition errorStatus (error : jsval) : jsval :=
  or_else (field error "status") (or_else (field error "code") (JStr [])).

(** The test of lines 177 to 186. *)
Definition isEmailExists (errorStatus errorMessage : jsval) (errorLower : jsstring) : bool :=
  strict_eq errorStatus (JInt 422) ||
  strict_eq errorStatus (JInt 400) ||
  includes errorLower (lit "already") ||
  includes errorLower (lit "exists") ||
  includes errorLower (lit "registered") ||
  includes errorLower (lit "duplicate") ||
  strict_eq errorMessage (str "User already registered") ||
  strict_eq errorMessage (str "Email already registered") ||
  strict_eq errorMessage (str "A user with this email already exists").

(** [signUp], lines 132 to 219.  [helper] is the [checkEmailExists] export of
    the client module as line 141 finds it: [None] when it is missing or not
    a function. *)
Definition signUp (helper : option (jsval -> Prog Settled))
    (email password metadata : jsval) : Prog Settled :=
  let metadata := match metadata with JUndefined => obj [] | _ => metadata end in
  async (
    let* s := get in
    (if signingUpRef s then
       return_ (obj [("data", JNull);
                     ("error", obj [("message", JStr msg_signup_in_progress)])])
     else skip) ;;
    modify (set_signingUpRef true) ;;
    modify (setLoading true) ;;
    try_catch_finally
      ((match helper with
        | Some checkEmailExists =>
            try_catch
              (let* emailExists := await_call (checkEmailExists email) in
               if strict_eq emailExists (JBool true) then
                 let errorMessage := JStr msg_email_exists in
                 modify (setError errorMessage) ;;
                 modify (set_signingUpRef false) ;;
                 modify (setLoading false) ;;
                 return_ (obj [("data", JNull);
                               ("error", obj [("message", errorMessage);
                                              ("code", str "EMAIL_EXISTS")])])
               else skip)
              (fun checkErr => skip)
        | None => skip
        end) ;;
       let* r := await (AuthSignUp
                          (obj [("email", email);
                                ("password", password);
                                ("options", obj [("data", metadata)])])) in
       let* data := prop r "data" in
       let* error := prop r "error" in
       (if truthy error then
          let message := errorMessage error in
          let status := errorStatus error in
          let* errorLower := call_toLowerCase message in
          (if isEmailExists status message errorLower then
             return_ (obj [("data", JNull);
                           ("error", obj [("message", JStr msg_email_exists);
                                          ("code", str "EMAIL_EXISTS");
                                          ("originalError", error)])])
           else skip) ;;
          return_ (obj [("data", JNull); ("error", error)])
        else skip) ;;
       modify (set_signingUpRef false) ;;
       return_ (obj [("data", data); ("error", JNull)]))
      (fun err =>
         let errorMessage := or_else (opt_prop err "message") (JStr msg_unexpected) in
         modify (setError errorMessage) ;;
         modify (set_signingUpRef false) ;;
         return_ (obj [("data", JNull);
                       ("error", obj [("message", errorMessage);
                                      ("code", str "UNKNOWN_ERROR")])]))
      (modify (setLoading false) ;;
       modify (set_signingUpRef false))).

(** [signUp] as the component has it, with the helper the client module
    exports. *)
Definition signUp_here : jsval -> jsval -> jsval -> Prog Settled :=
  signUp (Some SupabaseClient.checkEmailExists).

End AuthContext.

(* ================================================================== *)
(** * The event loop *)
(* ================================================================== *)

(** Calls interleave at their suspension points only.  The loop holds the
    store, the calls that are suspended (each with the request it waits on
    and the rest of its body), the network requests issued so far and the
    promises of the calls that have finished. *)
Module Loop.

Record Task : Type := mkTask {
  waiting : Request;
  resume : Settled -> Prog Settled
}.

Record Machine : Type := mkMachine {
  store : Store;
  tasks : list Task;
  network : list Request;
  finished : list Settled
}.

Inductive Event : Type :=
| Call (p : Prog Settled)        (* a function of the program is called *)
| Settle (i : nat) (x : Settled) (* what the [i]-th suspended call awaits settles *)
| FireTimer (i : nat).           (* the [i]-th pending timer fires *)

Fixpoint remove_nth {A : Type} (i : nat) (l : list A) : list A :=
  match i, l with
  | _, [] => []
  | O, _ :: l' => l'
  | S i', x :: l' => x :: remove_nth i' l'
  end.

(** Run [p] up to its end or its next [await]. *)
Definition advance (m : Machine) (p : Prog Settled) : Machine :=
  match run p (store m) with
  | (s', Done x) => mkMachine s' (tasks m) (network m) (finished m ++ [x])
  | (s', Blocked r k) =>
      mkMachine s' (tasks m ++ [mkTask r k])
        (if is_network r then network m ++ [r] else network m) (finished m)
  end.

Definition step (m : Machine) (e : Event) : Machine :=
  match e with
  | Call p => advance m p
  | Settle i x =>
      match nth_error (tasks m) i with
      | Some t =>
          advance (mkMachine (store m) (remove_nth i (tasks m)) (network m) (finished m))
                  (resume t x)
      | None => m
      end
  | FireTimer i =>
      match nth_error (timers (store m)) i with
      | Some (newSession, _) =>
          advance (mkMachine (set_timers (remove_nth i (timers (store m))) (store m))
                             (tasks m) (network m) (finished m))
                  (AuthContext.signedInTimeout newSession)
      | None => m
      end
  end.

Definition play (m : Machine) (es : list Event) : Machine := fold_left step es m.

Definition boot (s : Store) : Machine := mkMachine s [] [] [].

End Loop.

(* ================================================================== *)
(** * Vocabulary of the statements *)
(* ================================================================== *)

(** The values the theorems below speak about: what the functions return in
    each of their outcomes, the classification of the specification, and
    worlds and data to run the functions on. *)
Module Outcomes.

Import AuthContext SupabaseClient.

(** A reply [{ data, error: null }] of the data store or of the provider. *)
Definition found (data : jsval) : jsval :=
  obj [("data", data); ("error", JNull)].

(** A reply [{ data: null, error }]. *)
Definition failed (error : jsval) : jsval :=
  obj [("data", JNull); ("error", error)].

(** The argument of [supabase.auth.signUp] at lines 164 to 170. *)
Definition credentials (email password metadata : jsval) : jsval :=
  obj [("email", email);
       ("password", password);
       ("options",
        obj [("data", match metadata with JUndefined => obj [] | _ => metadata end)])].

(** What [signUp] returns at line 134 (a signup is already in flight), at
    lines 151 to 157 (the pre-check found the address), at lines 189 to 196
    (the provider's error is classified) and at line 199 (it is not). *)
Definition signup_in_progress : jsval :=
  failed (obj [("message", JStr msg_signup_in_progress)]).

Definition email_exists_by_precheck : jsval :=
  failed (obj [("message", JStr msg_email_exists);
               ("code", str "EMAIL_EXISTS")]).

Definition email_exists_by_provider (error : jsval) : jsval :=
  failed (obj [("message", JStr msg_email_exists);
               ("code", str "EMAIL_EXISTS");
               ("originalError", error)]).

Definition passed_through (error : jsval) : jsval := failed error.

(** The classification of a provider error as section 4.3 of the
    specification words it: status code first, then the keywords in the
    lowered text, then the known phrasings, else unclassified. *)
Inductive classification : Type :=
| EMAIL_EXISTS
| Unclassified.

Definition keywords : list jsstring :=
  [lit "already"; lit "exists"; lit "registered"; lit "duplicate"].

Definition known_phrasings : list jsstring :=
  [lit "User already registered";
   lit "Email already registered";
   lit "A user with this email already exists"].

Definition classify_spec (status : jsval) (text : jsstring) : classification :=
  if strict_eq status (JInt 422) || strict_eq status (JInt 400) then EMAIL_EXISTS
  else if existsb (includes (toLowerCase text)) keywords then EMAIL_EXISTS
  else if existsb (JsString.eqb text) known_phrasings then EMAIL_EXISTS
  else Unclassified.

Definition classified (error : jsval) (c : classification) : jsval :=
  match c with
  | EMAIL_EXISTS => email_exists_by_provider error
  | Unclassified => passed_through error
  end.

(** Containment that ignores the case of the text, as the specification
    means it, said without [toLowerCase]: some stretch of the text spells the
    word, each of its code units being the word's or the ASCII capital of the
    word's. *)
Definition same_letter (c k : N) : Prop :=
  c = k \/ ((65 <= c)%N /\ (c <= 90)%N /\ k = (c + 32)%N).

Definition contains_ignoring_case (text word : jsstring) : Prop :=
  exists pre mid post, text = pre ++ mid ++ post /\ Forall2 same_letter mid word.

(** A provider error with status 500 and the given message. *)
Definition error500 (message : string) : jsval :=
  obj [("message", str message); ("status", JInt 500)].

(** What [callRagBrain] returns from its [catch] for an error made with
    [new Error(message)], and from line 483. *)
Definition rag_error (message : jsstring) : jsval :=
  failed (newError message).

Definition rag_result (answer sources processingTime : jsval) : jsval :=
  found (obj [("answer", answer);
              ("sources", sources);
              ("processingTime", processingTime)]).


(** [options] after the default of the parameter list. *)
Definition defaulted (options : jsval) : jsval :=
  match options with
  | JUndefined => obj []
  | _ => options
  end.

(** A world that settles the [n]-th request of a call with the [n]-th entry
    of a script and leaves the store alone. *)
Definition scripted (answers : list Settled) : World :=
  fun n _ s => (nth n answers (Resolved JUndefined), s).

(** Sample data. *)
Definition user1 : jsval := obj [("id", str "u1"); ("email", str "a@example.com")].
Definition session1 : jsval := obj [("access_token", str "token"); ("user", user1)].
Definition profileA : jsval :=
  obj [("id", str "u1"); ("business_role", str "auditor"); ("org_id", str "o1")].
Definition profileB : jsval :=
  obj [("id", str "u1"); ("business_role", str "auditor"); ("org_id", JNull)].
Definition profileC : jsval :=
  obj [("id", str "u1"); ("business_role", str "auditor"); ("org_id", str "o2")].
Definition orgA : jsval := obj [("id", str "o1"); ("name", str "Org A")].
Definition permission_denied : jsval :=
  obj [("code", str "42501"); ("message", str "permission denied")].
Definition not_found : jsval :=
  failed (obj [("code", str "PGRST116"); ("message", str "no rows")]).
Definition sessionReply (session : jsval) : jsval :=
  obj [("data", obj [("session", session)]); ("error", JNull)].
Definition error422 : jsval :=
  obj [("message", str "Database error saving new user"); ("status", JInt 422)].
Definition rejecting_helper : jsval -> Prog Settled :=
  fun _ => async (throw (newError (lit "network down"))).
Definition sampleUrl : jsstring := lit "https://project.supabase.co".
Definition sampleKey : jsstring := lit "anon-key".
Definition sampleToString : jsval -> jsstring := fun _ => lit "[object Object]".
Definition sampleStringify : jsval -> jsstring := fun _ => lit "{}".
Definition okResponse : jsval := obj [("ok", JBool true); ("status", JInt 200)].
Definition answerY : jsval :=
  obj [("success", JBool true); ("answer", str "Y"); ("sources", JArr []);
       ("processing_time_ms", JInt 42)].
Definition mountedStore : Store := set_mounted true initialStore.
Definition busyStore : Store :=
  set_signingUpRef true (set_loadingProfileRef true mountedStore).

End Outcomes.

(* ================================================================== *)
(** * The rest of the client module and of the provider's value *)
(* ================================================================== *)

(** The two remaining exports of src/lib/supabaseClient.js. *)
Module SupabaseRpc.

(** [getMyProfile], lines 392 to 396 of the listing. *)
Definition getMyProfile : Prog Settled :=
  async (
    let* r := await (Rpc (lit "get_my_profile") JUndefined) in
    let* data := prop r "data" in
    let* error := prop r "error" in
    (if truthy error then return_ JNull else skip) ;;
    return_ data).

(** [completeOnboarding], lines 398 to 406; [bio] is [null] when the caller
    leaves it out. *)
Definition completeOnboarding (businessRole bio : jsval) : Prog Settled :=
  let bio := match bio with JUndefined => JNull | _ => bio end in
  async (
    let* r := await (Rpc (lit "complete_onboarding")
                         (obj [("p_business_role", businessRole);
                               ("p_bio", bio)])) in
    let* data := prop r "data" in
    let* error := prop r "error" in
    (if truthy error then throw error else skip) ;;
    return_ data).

End SupabaseRpc.

(** The derived flags of the context value, lines 347 to 351 of
    src/contexts/AuthContext.jsx, as functions of the state. *)
Module AuthValue.

Record Flags : Type := mkFlags {
  v_loading : bool;
  isAuthenticated : bool;
  isOnboarded : bool;
  isOrgAdmin : bool;
  isSuperAdmin : bool;
  hasProfile : bool
}.

Definition value (s : Store) : Flags :=
  mkFlags
    (loading s)
    (truthy (session s))
    (truthy (opt_prop (profile s) "business_role"))
    (strict_eq (opt_prop (profile s) "app_role") (str "org_admin") ||
     strict_eq (opt_prop (profile s) "app_role") (str "super_admin"))
    (strict_eq (opt_prop (profile s) "app_role") (str "super_admin"))
    (truthy (profile s)).

(** [useContext(AuthContext)]: the value of the nearest provider, or
    without one the default the context was created with (line 5). *)
Definition defaultValue : jsval := obj [].

Definition useContext (provided : option jsval) : jsval :=
  match provided with
  | Some v => v
  | None => defaultValue
  end.

(** [useAuth], lines 7 to 13. *)
Definition useAuth (provided : option jsval) : Stmt unit :=
  let context := useContext provided in
  (if negb (truthy context)
   then throw (newError (lit "useAuth doit " ++ [234%N] ++ lit "tre utilis" ++ [233%N] ++
                         lit " dans un AuthProvider"))
   else skip) ;;
  return_ context.

(** The flags as a guard reads them off whatever [useAuth] returned: it
    destructures the object and tests the fields in [if]s. *)
Definition flags_of (context : jsval) : Flags :=
  mkFlags
    (truthy (field context "loading"))
    (truthy (field context "isAuthenticated"))
    (truthy (field context "isOnboarded"))
    (truthy (field context "isOrgAdmin"))
    (truthy (field context "isSuperAdmin"))
    (truthy (field context "hasProfile")).

End AuthValue.

(** The route guards of src/components/ProtectedRoute.jsx (the second
    unnamed file), as functions from the flags to what they render. *)
Module Routes.

Import AuthValue.

(** What a guard renders: the loading screen, a redirect (with or without
    the [from] location in its state), the screen for a missing profile
    (whose buttons are [refreshProfile] and [signOut]), or its children. *)
Inductive Element : Type :=
| LoadingScreen
| Navigate (to : jsstring) (from : bool)
| ProfileErrorScreen
| Children.

Definition ProtectedRoute (v : Flags) : Element :=
  if v_loading v then LoadingScreen
  else if negb (isAuthenticated v) then Navigate (lit "/login") true
  else if negb (hasProfile v) then ProfileErrorScreen
  else if negb (isOnboarded v) then Navigate (lit "/onboarding") false
  else Children.

Definition OnboardingRoute (v : Flags) : Element :=
  if v_loading v then LoadingScreen
  else if negb (isAuthenticated v) then Navigate (lit "/login") true
  else if negb (hasProfile v) then ProfileErrorScreen
  else if isOnboarded v then Navigate (lit "/dashboard") false
  else Children.

Definition PublicRoute (v : Flags) : Element :=
  if v_loading v then LoadingScreen
  else if isAuthenticated v then
    if negb (hasProfile v) then Children
    else if negb (isOnboarded v) then Navigate (lit "/onboarding") false
    else Navigate (lit "/dashboard") false
  else Children.

Definition AdminRoute (v : Flags) : Element :=
  if v_loading v then LoadingScreen
  else if negb (isAuthenticated v) then Navigate (lit "/login") true
  else if negb (hasProfile v) then ProfileErrorScreen
  else if negb (isOnboarded v) then Navigate (lit "/onboarding") false
  else if negb (isOrgAdmin v) then Navigate (lit "/dashboard") false
  else Children.

End Routes.

(** The functions of [AuthProvider] that await one operation of
    [supabase.auth] each: [signIn], [signInWithGoogle], [signOut],
    [resetPassword], [updatePassword] (lines 221 to 334). *)
Module AuthOperations.

(** The operations awaited. *)
Inductive AuthCall : Type :=
| SignInWithPassword (credentials : jsval)      (* supabase.auth.signInWithPassword(credentials) *)
| SignInWithOAuth (args : jsval)                (* supabase.auth.signInWithOAuth(args) *)
| SignOut                                       (* supabase.auth.signOut() *)
| ResetPasswordForEmail (email options : jsval) (* supabase.auth.resetPasswordForEmail(email, options) *)
| UpdateUser (attributes : jsval).              (* supabase.auth.updateUser(attributes) *)

(** A function with a single [await], cut at it: the updates it makes
    before, the operation it awaits, and the rest of its body, which starts
    inside the [try] with the settlement of the operation. *)
Record Awaiting : Type := mkAwaiting {
  before : Store -> Store;
  awaited : AuthCall;
  after : Settled -> Prog Settled
}.

(** The value of [await p] once [p] has settled. *)
Definition settled (x : Settled) : Stmt jsval :=
  match x with
  | Resolved v => ret v
  | Rejected e => throw e
  end.

(** The whole call: the store after the first stretch, then, once the
    operation has settled as [x] and the store has become [s'] in the
    meantime, the last stretch. *)
Definition started (c : Awaiting) (s : Store) : Store := before c s.

Definition finish (c : Awaiting) (x : Settled) (s' : Store) : Store * Susp Settled :=
  run (after c x) s'.

(** [signIn], lines 221 to 240. *)
Definition signIn (email password : jsval) : Awaiting :=
  mkAwaiting
    (fun s => setError JNull (setLoading true s))
    (SignInWithPassword (obj [("email", email); ("password", password)]))
    (fun x =>
       async (
         try_catch_finally
           (let* r := settled x in
            let* data := prop r "data" in
            let* error := prop r "error" in
            (if truthy error then throw error else skip) ;;
            return_ (obj [("data", data); ("error", JNull)]))
           (fun err =>
              let* message := prop err "message" in
              modify (setError message) ;;
              return_ (obj [("data", JNull); ("error", err)]))
           (modify (setLoading false)))).

(** [signOut], lines 265 to 286. *)
Definition signOut : Awaiting :=
  mkAwaiting
    (fun s => setError JNull (setLoading true s))
    SignOut
    (fun x =>
       async (
         try_catch_finally
           (let* r := settled x in
            let* error := prop r "error" in
            (if truthy error then throw error else skip) ;;
            modify (setUser JNull) ;;
            modify (setSession JNull) ;;
            modify (setProfile JNull) ;;
            modify (setOrganization JNull) ;;
            modify (set_profileLoadedRef false) ;;
            return_ (obj [("error", JNull)]))
           (fun err =>
              let* message := prop err "message" in
              modify (setError message) ;;
              return_ (obj [("error", err)]))
           (modify (setLoading false)))).

(** [updatePassword], lines 316 to 334. *)
Definition updatePassword (newPassword : jsval) : Awaiting :=
  mkAwaiting
    (fun s => setError JNull (setLoading true s))
    (UpdateUser (obj [("password", newPassword)]))
    (fun x =>
       async (
         try_catch_finally
           (let* r := settled x in
            let* data := prop r "data" in
            let* error := prop r "error" in
            (if truthy error then throw error else skip) ;;
            return_ (obj [("data", data); ("error", JNull)]))
           (fun err =>
              let* message := prop err "message" in
              modify (setError message) ;;
              return_ (obj [("data", JNull); ("error", err)]))
           (modify (setLoading false)))).

Section Browser.

(** [window.location.origin] *)
Variable origin : jsstring.

(** [signInWithGoogle], lines 242 to 263. *)
Definition signInWithGoogle : Awaiting :=
  mkAwaiting
    (fun s => setError JNull (setLoading true s))
    (SignInWithOAuth
       (obj [("provider", str "google");
             ("options", obj [("redirectTo", JStr (origin ++ lit "/dashboard"))])]))
    (fun x =>
       async (
         try_catch_finally
           (let* r := settled x in
            let* data := prop r "data" in
            let* error := prop r "error" in
            (if truthy error then throw error else skip) ;;
            return_ (obj [("data", data); ("error", JNull)]))
           (fun err =>
              let* message := prop err "message" in
              modify (setError message) ;;
              return_ (obj [("data", JNull); ("error", err)]))
           (modify (setLoading false)))).

(** [resetPassword], lines 296 to 314. *)
Definition resetPassword (email : jsval) : Awaiting :=
  mkAwaiting
    (fun s => setError JNull (setLoading true s))
    (ResetPasswordForEmail email
       (obj [("redirectTo", JStr (origin ++ lit "/reset-password"))]))
    (fun x =>
       async (
         try_catch_finally
           (let* r := settled x in
            let* data := prop r "data" in
            let* error := prop r "error" in
            (if truthy error then throw error else skip) ;;
            return_ (obj [("data", data); ("error", JNull)]))
           (fun err =>
              let* message := prop err "message" in
              modify (setError message) ;;
              return_ (obj [("data", JNull); ("error", err)]))
           (modify (setLoading false)))).

End Browser.

End AuthOperations.

(* ================================================================== *)
(** * Vocabulary of the further statements *)
(* ================================================================== *)

Module Further.

Import AuthContext Outcomes.

(** Worlds in which no promise rejects with [null] or [undefined]. *)
Definition rejects_with_values (w : World) : Prop :=
  forall k r st e, fst (w k r st) = Rejected e -> is_nullish e = false.

(** Events that are neither a sign-in with a user nor a sign-out. *)
Definition plain_event (event newSession : jsval) : bool :=
  negb (strict_eq event (str "SIGNED_IN") && truthy (opt_prop newSession "user")) &&
  negb (strict_eq event (str "SIGNED_OUT")).

(** What the provider and the clock can still deliver after the cleanup:
    calls of the handler and scheduled callbacks. *)
Definition late_event (e : Loop.Event) : Prop :=
  match e with
  | Loop.Call p => exists event newSession, p = onAuthStateChange event newSession
  | Loop.FireTimer _ => True
  | Loop.Settle _ _ => False
  end.

(** The published cells and the flags of two stores agree. *)
Definition same_state (s s' : Store) : Prop :=
  user s' = user s /\ session s' = session s /\ profile s' = profile s /\
  organization s' = organization s /\ loading s' = loading s /\ error s' = error s /\
  profileLoadedRef s' = profileLoadedRef s /\ loadingProfileRef s' = loadingProfileRef s /\
  signingUpRef s' = signingUpRef s /\ mounted s' = mounted s.

(** A suspended call that, resumed with the signup flag set, keeps the
    flag set while it is suspended again (at most [d] more times) and clears
    it when it ends. *)
Fixpoint releasing (d : nat) (k : Settled -> Prog Settled) : Prop :=
  forall x s,
    signingUpRef s = true ->
    match run (k x) s with
    | (s', Done _) => signingUpRef s' = false
    | (s', Blocked _ k') =>
        signingUpRef s' = true /\
        match d with
        | O => False
        | S d' => releasing d' k'
        end
    end.

(** The events of a page that only signs up: calls of [signUp], and
    settlements of whatever is awaited. *)
Definition signup_event (helper : option (jsval -> Prog Settled)) (e : Loop.Event) : Prop :=
  match e with
  | Loop.Call p => exists email password metadata, p = signUp helper email password metadata
  | Loop.Settle _ _ => True
  | Loop.FireTimer _ => False
  end.

(** Either no signup is in flight and the flag is clear, or exactly one is
    and the flag is set. *)
Definition exclusive (m : Loop.Machine) : Prop :=
  (signingUpRef (Loop.store m) = false /\ Loop.tasks m = []) \/
  (signingUpRef (Loop.store m) = true /\
   exists t, Loop.tasks m = [t] /\ releasing 2 (Loop.resume t)).

(** A [{ data, error }] pair of which one side at least is [null]. *)
Definition result_pair (x : Settled) : Prop :=
  exists data error,
    x = Resolved (obj [("data", data); ("error", error)]) /\
    (data = JNull \/ error = JNull).

(** What [signUp] returns from its [catch] (lines 204 to 214). *)
Definition unknown_error (err : jsval) : jsval :=
  failed (obj [("message", or_else (opt_prop err "message") (JStr msg_unexpected));
               ("code", str "UNKNOWN_ERROR")]).

(** What the remote procedure's answer means to [checkEmailExists]. *)
Definition email_known (x : Settled) : bool :=
  match x with
  | Resolved r =>
      negb (is_nullish r) && negb (truthy (field r "error")) &&
      (strict_eq (field r "data") (JBool true) ||
       strict_eq (field r "data") (str "true") ||
       strict_eq (field r "data") (JInt 1))
  | Rejected _ => false
  end.

(** The four functions of the provider that hand back a [{ data, error }]
    pair: [signIn], [signInWithGoogle], [resetPassword], [updatePassword]. *)
Definition pair_operation (origin : jsstring) (c : AuthOperations.Awaiting) : Prop :=
  (exists email password, c = AuthOperations.signIn email password) \/
  c = AuthOperations.signInWithGoogle origin \/
  (exists email, c = AuthOperations.resetPassword origin email) \/
  (exists newPassword, c = AuthOperations.updatePassword newPassword).

(** What the [catch] of these functions and of [signOut] receives, if
    anything: the rejection, the [TypeError] of destructuring [null] or
    [undefined], or the [error] of the answer. *)
Definition caught (x : Settled) : option jsval :=
  match x with
  | Rejected e => Some e
  | Resolved r =>
      if is_nullish r
      then Some (TypeError "Cannot read properties of null or undefined")
      else if truthy (field r "error") then Some (field r "error") else None
  end.

(** Every cell but [loading] and [error] agrees. *)
Definition same_account (s s' : Store) : Prop :=
  user s' = user s /\ session s' = session s /\ profile s' = profile s /\
  organization s' = organization s /\
  profileLoadedRef s' = profileLoadedRef s /\ loadingProfileRef s' = loadingProfileRef s /\
  signingUpRef s' = signingUpRef s /\ mounted s' = mounted s /\ timers s' = timers s.

(** Sample data. *)
Definition wrong_password : jsval :=
  obj [("data", obj [("user", JNull); ("session", JNull)]);
       ("error", JObj true [(lit "message", str "Invalid login credentials")])].
Definition signed_out_ok : jsval := obj [("error", JNull)].
Definition session2 : jsval :=
  obj [("access_token", str "token2");
       ("user", obj [("id", str "u2"); ("email", str "b@example.com")])].
Definition adminProfile : jsval :=
  obj [("id", str "u1"); ("business_role", str "provider"); ("app_role", str "super_admin")].
Definition sampleOrigin : jsstring := lit "https://app.example.com".
Definition offline : jsval := newError (lit "Failed to fetch").
Definition errorResponse : jsval := obj [("ok", JBool false); ("status", JInt 500)].
Definition emptyBody : jsval := obj [].

(** A world that answers from a script and in which the component is
    unmounted while the answer is awaited. *)
Definition unmounting (answers : list Settled) : World :=
  fun n _ s => (nth n answers (Resolved JUndefined), set_mounted false s).

End Further.

(* ================================================================== *)
(** * General facts about strings, values and programs *)
(* ================================================================== *)

Unset Implicit Arguments.

Module JsStringFacts.

Lemma eqb_refl (s : jsstring) : JsString.eqb s s = true.
Proof.
  induction s as [|c s IH]; simpl; [reflexivity|].
  now rewrite N.eqb_refl, IH.
Qed.

Lemma eqb_eq (a b : jsstring) : JsString.eqb a b = true <-> a = b.
Proof.
  split.
  - revert b; induction a as [|x a IH]; intros [|y b]; simpl; try discriminate; auto.
    intros H. apply andb_true_iff in H as [Hx Hab].
    apply N.eqb_eq in Hx. f_equal; auto.
  - intros ->. apply eqb_refl.
Qed.

Lemma eqb_nil_r (s : jsstring) : JsString.eqb s [] = true <-> s = [].
Proof.
  apply eqb_eq.
Qed.

Lemma trim_nil : trim [] = [].
Proof. reflexivity. Qed.

Lemma trimStart_all_space (s : jsstring) :
  forallb isWhiteSpace s = true -> trimStart s = [].
Proof.
  induction s as [|c s IH]; simpl; [reflexivity|].
  intros H. apply andb_true_iff in H as [Hc Hs].
  rewrite Hc. auto.
Qed.

(** A string made of white space only trims to the empty string. *)
Lemma trim_all_space (s : jsstring) :
  forallb isWhiteSpace s = true -> trim s = [].
Proof.
  intros H. unfold trim, trimEnd.
  now rewrite (trimStart_all_space s H).
Qed.

End JsStringFacts.

Section ValueFacts.

Lemma strict_eq_true_inv (v : jsval) :
  strict_eq v (JBool true) = true -> v = JBool true.
Proof.
  destruct v as [| |b| | | |]; simpl; try discriminate.
  destruct b; [reflexivity | discriminate].
Qed.

(** A value strictly equal to a non-zero integer is truthy. *)
Lemma strict_eq_int_truthy (v : jsval) (z : Z) :
  z <> 0%Z -> strict_eq v (JInt z) = true -> truthy v = true.
Proof.
  intros Hz. destruct v as [| | |[q| | |]| | |]; simpl; try discriminate.
  intros H. apply Qeq_bool_iff in H.
  destruct (Qeq_bool q 0) eqn:E; [|reflexivity].
  apply Qeq_bool_iff in E. exfalso.
  rewrite E in H. unfold Qeq, inject_Z in H. simpl in H. lia.
Qed.

(** A blank string, as [callRagBrain] tests it at lines 440 and 444. *)
Lemma blank_of_trim_nil (q : jsstring) :
  trim q = [] -> SupabaseClient.blank (JStr q) = ret true.
Proof.
  intros H. unfold SupabaseClient.blank. destruct q as [|c q]; [reflexivity|].
  simpl. now rewrite H.
Qed.

Lemma blank_of_trim_cons (q : jsstring) :
  trim q <> [] -> SupabaseClient.blank (JStr q) = ret false.
Proof.
  intros H. unfold SupabaseClient.blank. destruct q as [|c q].
  - now elim H.
  - simpl. destruct (trim (c :: q)); [now elim H | reflexivity].
Qed.

End ValueFacts.

Section ProgramFacts.

Context {A B : Type}.

(** A call made of two parts runs the first, then the second from where
    the first ended. *)
Lemma exec_bind (w : World) (p : Prog A) (f : A -> Prog B) :
  forall s n,
    exec w (bind p f) s n =
    let o1 := exec w p s n in
    let o2 := exec w (f (result o1)) (final o1) (steps o1) in
    mkOutcome (final o2) (result o2) (sent o1 ++ sent o2) (steps o2).
Proof.
  induction p as [a | k IH | s' k IH | r k IH]; intros s n; simpl.
  - now destruct (exec w (f a) s n).
  - apply IH.
  - apply IH.
  - now rewrite IH.
Qed.

Lemma run_bind_done (p : Prog A) (f : A -> Prog B) (s s' : Store) (a : A) :
  run p s = (s', Done a) -> run (bind p f) s = run (f a) s'.
Proof.
  revert s; induction p as [a0 | k IH | s0 k IH | r k IH]; intros s; simpl.
  - now intros [= -> ->].
  - apply IH.
  - apply IH.
  - discriminate.
Qed.

Lemma run_bind_blocked (p : Prog A) (f : A -> Prog B) (s s' : Store) r k :
  run p s = (s', Blocked r k) ->
  run (bind p f) s = (s', Blocked r (fun x => bind (k x) f)).
Proof.
  revert s; induction p as [a0 | k0 IH | s0 k0 IH | r0 k0 IH]; intros s; simpl.
  - discriminate.
  - apply IH.
  - apply IH.
  - now intros [= -> -> ->].
Qed.

(** A whole call is its synchronous stretches chained by the answers of
    the world. *)
Lemma exec_run_done (w : World) (p : Prog A) (s s' : Store) (a : A) (n : nat) :
  run p s = (s', Done a) -> exec w p s n = mkOutcome s' a [] n.
Proof.
  revert s; induction p as [a0 | k IH | s0 k IH | r k IH]; intros s; simpl.
  - now intros [= -> ->].
  - apply IH.
  - apply IH.
  - discriminate.
Qed.

Lemma exec_run_blocked (w : World) (p : Prog A) (s s' : Store) r k (n : nat) :
  run p s = (s', Blocked r k) ->
  exec w p s n =
  let o := exec w (k (fst (w n r s'))) (snd (w n r s')) (S n) in
  mkOutcome (final o) (result o) ((r, fst (w n r s')) :: sent o) (steps o).
Proof.
  revert s; induction p as [a0 | k0 IH | s0 k0 IH | r0 k0 IH]; intros s; simpl.
  - discriminate.
  - apply IH.
  - apply IH.
  - now intros [= -> -> ->].
Qed.

End ProgramFacts.

(** Nesting of sequences does not matter to what a call does. *)
Lemma exec_bind_assoc {A B C : Type} (w : World)
    (p : Prog A) (f : A -> Prog B) (g : B -> Prog C) :
  forall s n,
    exec w (bind (bind p f) g) s n = exec w (bind p (fun a => bind (f a) g)) s n.
Proof.
  induction p as [a | k IH | s' k IH | r k IH]; intros s n; simpl.
  - reflexivity.
  - apply IH.
  - apply IH.
  - now rewrite IH.
Qed.

Section FinallyFacts.

Context {A : Type}.
Variable w : World.

(** Whatever the body does, a [finally] block that only updates the store
    has the last word on the store, and none on the completion. *)
Lemma exec_try_finally (body : Stmt A) (fin : Stmt unit) (f : Store -> Store) s n :
  updates_store w fin f ->
  exec w (try_finally body fin) s n =
  let o := exec w body s n in
  mkOutcome (f (final o)) (result o) (sent o) (steps o).
Proof.
  intros Hfin. unfold try_finally. rewrite exec_bind.
  cbv zeta. rewrite exec_bind. rewrite Hfin. simpl.
  now rewrite app_nil_r.
Qed.

Lemma exec_try_finally_final (body : Stmt A) (fin : Stmt unit) (f : Store -> Store) s n :
  updates_store w fin f ->
  final (exec w (try_finally body fin) s n) = f (final (exec w body s n)).
Proof.
  intros Hfin. now rewrite (exec_try_finally body fin f s n Hfin).
Qed.

End FinallyFacts.

Arguments exec_try_finally {A} w body fin f s n _.
Arguments exec_try_finally_final {A} w body fin f s n _.

Lemma exec_async_final (w : World) (body : Stmt unit) s n :
  final (exec w (async body) s n) = final (exec w body s n).
Proof.
  unfold async. rewrite exec_bind. reflexivity.
Qed.

(** Proof steps shared by the theorems below: keep the literals folded while
    a call is unfolded, and split on whatever the call is stuck on. *)
Arguments lit : simpl never.
Arguments str : simpl never.
Arguments obj : simpl never.
Arguments try_catch_finally : simpl never.

Ltac exec_case :=
  match goal with
  | |- context [exec _ (match ?x with _ => _ end)] => destruct x eqn:?
  | |- context [exec _ (bind (match ?x with _ => _ end) _)] => destruct x eqn:?
  | |- context [exec _ (bind (bind (match ?x with _ => _ end) _) _)] =>
      destruct x eqn:?
  | |- context [exec _ (bind (bind (bind (match ?x with _ => _ end) _) _) _)] =>
      destruct x eqn:?
  | |- context [exec _ (bind (bind (bind (bind (match ?x with _ => _ end) _) _) _) _)] =>
      destruct x eqn:?
  | |- context [exec _ (bind (bind (bind (bind (bind (match ?x with _ => _ end) _) _) _) _) _)] =>
      destruct x eqn:?
  end.

Ltac exec_cases := repeat (cbn; unfold seq, prop; cbn; exec_case); cbn.

(* ================================================================== *)
(** * ProfileLoader *)
(* ================================================================== *)

Module ProfileLoader.

Import AuthContext Outcomes.

(** A call that finds the guard set returns at once: the store is as it
    was and nothing was awaited. *)
Lemma load_guarded_noop (userId : jsval) (s : Store) :
  loadingProfileRef s = true ->
  run (loadUserProfile userId) s = (s, Done (Resolved JUndefined)).
Proof.
  intros H. unfold loadUserProfile. cbn. rewrite H. reflexivity.
Qed.

(** A call that finds the guard clear sets it and suspends on the fetch of
    the profile. *)
Lemma load_unguarded_fetches (userId : jsval) (s : Store) :
  loadingProfileRef s = false ->
  exists k,
    run (loadUserProfile userId) s =
    (set_loadingProfileRef true s,
     Blocked (FromSelectSingle (lit "profiles") userId) k).
Proof.
  intros H. unfold loadUserProfile. cbn. rewrite H. cbn.
  unfold try_catch_finally. cbn. eexists. reflexivity.
Qed.

(** However the call ends, the guard is clear afterwards. *)
Lemma load_releases (w : World) (userId : jsval) (s : Store) (n : nat) :
  loadingProfileRef s = false ->
  loadingProfileRef (final (exec w (loadUserProfile userId) s n)) = false.
Proof.
  intros H. unfold loadUserProfile. rewrite exec_async_final.
  cbn. rewrite H. cbn.
  unfold try_catch_finally.
  rewrite (exec_try_finally_final w _ _ (set_loadingProfileRef false));
    [reflexivity | intros s0 n0; reflexivity].
Qed.

(** Two calls in a row: the second finds the guard the first has set. *)
Lemma load_twice (userId : jsval) (s : Store) :
  loadingProfileRef s = false ->
  let m := Loop.play (Loop.boot s)
             [Loop.Call (loadUserProfile userId); Loop.Call (loadUserProfile userId)] in
  Loop.network m = [FromSelectSingle (lit "profiles") userId] /\
  Loop.finished m = [Resolved JUndefined] /\
  List.length (Loop.tasks m) = 1.
Proof.
  intros H m. subst m.
  destruct (load_unguarded_fetches userId s H) as [k Hk].
  assert (E : Loop.step (Loop.boot s) (Loop.Call (loadUserProfile userId)) =
              Loop.mkMachine (set_loadingProfileRef true s)
                [Loop.mkTask (FromSelectSingle (lit "profiles") userId) k]
                [FromSelectSingle (lit "profiles") userId] []).
  { unfold Loop.step, Loop.advance, Loop.boot. cbn [Loop.store].
    rewrite Hk. reflexivity. }
  unfold Loop.play. cbn [fold_left]. rewrite E.
  unfold Loop.step, Loop.advance. cbn [Loop.store].
  rewrite load_guarded_noop by reflexivity.
  repeat split.
Qed.

(** C4. ProfileLoader's guard: a call to [loadUserProfile] that finds the
    profile-fetch guard set is a silent no-op (it returns [undefined], leaves
    the store as it was and awaits nothing), so that of two calls in a row
    only the first reaches the profile store; and a call that passed the
    guard leaves it clear when it ends, in every world, that is on every
    path (profile found, not found, fetch failed, exception). *)
Theorem profile_fetch_guard (w : World) (userId : jsval) (s : Store) (n : nat) :
  (loadingProfileRef s = true ->
   run (loadUserProfile userId) s = (s, Done (Resolved JUndefined))) /\
  (loadingProfileRef s = false ->
   let m := Loop.play (Loop.boot s)
              [Loop.Call (loadUserProfile userId); Loop.Call (loadUserProfile userId)] in
   Loop.network m = [FromSelectSingle (lit "profiles") userId] /\
   Loop.finished m = [Resolved JUndefined] /\
   List.length (Loop.tasks m) = 1) /\
  (loadingProfileRef s = false ->
   loadingProfileRef (final (exec w (loadUserProfile userId) s n)) = false).
Proof.
  split; [|split].
  - apply load_guarded_noop.
  - apply load_twice.
  - apply load_releases.
Qed.

(** The guard at work: a call on a busy store, two calls in a row, and a
    load whose organization fetch is rejected. *)
Lemma profile_fetch_guard_witness :
  run (loadUserProfile (str "u1")) busyStore = (busyStore, Done (Resolved JUndefined)) /\
  Loop.network (Loop.play (Loop.boot mountedStore)
                  [Loop.Call (loadUserProfile (str "u1"));
                   Loop.Call (loadUserProfile (str "u1"))]) =
    [FromSelectSingle (lit "profiles") (str "u1")] /\
  loadingProfileRef
    (final (exec (scripted [Resolved (found profileA); Rejected (str "down")])
                 (loadUserProfile (str "u1")) mountedStore 0)) = false.
Proof.
  split; [|split].
  - apply (proj1 (profile_fetch_guard (scripted []) (str "u1") busyStore 0)).
    reflexivity.
  - apply (proj1 (proj2 (profile_fetch_guard (scripted []) (str "u1") mountedStore 0))).
    reflexivity.
  - apply (proj2 (proj2 (profile_fetch_guard
                           (scripted [Resolved (found profileA); Rejected (str "down")])
                           (str "u1") mountedStore 0))).
    reflexivity.
Defined.

(** C9. A fetch of the profile that the store answers with the not-found
    error (code PGRST116) ends the load successfully: the promise resolves,
    profile and organization are [null], no further request is made, and the
    [error] of the state is what it was when the answer arrived. *)
Theorem profile_not_found (w : World) (userId r : jsval) (s s' : Store) (n : nat) :
  loadingProfileRef s = false ->
  w n (FromSelectSingle (lit "profiles") userId) (set_loadingProfileRef true s)
    = (Resolved r, s') ->
  is_nullish r = false ->
  truthy (field r "error") = true ->
  strict_eq (field (field r "error") "code") (str "PGRST116") = true ->
  let o := exec w (loadUserProfile userId) s n in
  result o = Resolved JUndefined /\
  profile (final o) = JNull /\
  organization (final o) = JNull /\
  error (final o) = error s' /\
  requests o = [FromSelectSingle (lit "profiles") userId] /\
  profileLoadedRef (final o) = true /\
  loadingProfileRef (final o) = false.
Proof.
  intros Hg Hw Hr He Hc o. subst o.
  unfold loadUserProfile, requests. cbn. rewrite Hg. cbn.
  unfold try_catch_finally. cbn. rewrite Hw. cbn.
  unfold prop. rewrite Hr. cbn. rewrite He. cbn. rewrite Hc. cbn.
  repeat split.
Qed.

(** A load answered with PGRST116 on a state that held a profile, an
    organization and an earlier error. *)
Lemma profile_not_found_witness :
  let o := exec (scripted [Resolved not_found]) (loadUserProfile (str "u1"))
                (setError (str "earlier") (setOrganization orgA (setProfile profileA mountedStore))) 0 in
  result o = Resolved JUndefined /\
  profile (final o) = JNull /\
  organization (final o) = JNull /\
  error (final o) = str "earlier".
Proof.
  pose proof (profile_not_found (scripted [Resolved not_found]) (str "u1") not_found
                (setError (str "earlier") (setOrganization orgA (setProfile profileA mountedStore)))
                (set_loadingProfileRef true
                   (setError (str "earlier")
                      (setOrganization orgA (setProfile profileA mountedStore))))
                0 eq_refl eq_refl eq_refl eq_refl eq_refl) as H.
  cbv zeta in H. cbv zeta.
  destruct H as (H1 & H2 & H3 & H4 & _).
  repeat split; assumption.
Defined.

(** The found branch sets the profile and, when the profile refers to no
    organization, leaves the organization cell as it finds it. *)
Lemma found_without_org_keeps_organization
    (w : World) (userId r : jsval) (s s' : Store) (n : nat) :
  loadingProfileRef s = false ->
  w n (FromSelectSingle (lit "profiles") userId) (set_loadingProfileRef true s)
    = (Resolved r, s') ->
  is_nullish r = false ->
  truthy (field r "error") = false ->
  truthy (opt_prop (field r "data") "org_id") = false ->
  let o := exec w (loadUserProfile userId) s n in
  result o = Resolved JUndefined /\
  profile (final o) = field r "data" /\
  organization (final o) = organization s' /\
  requests o = [FromSelectSingle (lit "profiles") userId].
Proof.
  intros Hg Hw Hr He Ho o. subst o.
  unfold loadUserProfile, requests. cbn. rewrite Hg. cbn.
  unfold try_catch_finally. cbn. rewrite Hw. cbn.
  unfold prop. rewrite Hr. cbn. rewrite He. cbn. rewrite Ho. cbn.
  repeat split.
Qed.

(** C2. The organization of an earlier profile outlives a reload.  The
    component mounts with a session, the load finds [profileA] and its
    organization [orgA]; then [refreshProfile] runs.  In the first trace the
    store now answers [profileB], whose [org_id] is [null]: the published
    state ends with profile [profileB] and organization [orgA].  In the
    second the store answers [profileC], which refers to another
    organization, and the fetch of that organization fails: the state ends
    with profile [profileC] and organization [orgA], whose [id] is not the
    profile's [org_id]. *)
Theorem stale_organization_after_reload :
  let loaded :=
    Loop.play (Loop.boot initialStore)
      [Loop.Call mount;
       Loop.Settle 0 (Resolved (sessionReply session1));
       Loop.Settle 0 (Resolved (found profileA));
       Loop.Settle 0 (Resolved (found orgA));
       Loop.Settle 0 (Resolved JUndefined)] in
  let m := Loop.play loaded
             [Loop.Call refreshProfile;
              Loop.Settle 0 (Resolved (found profileB));
              Loop.Settle 0 (Resolved JUndefined)] in
  let m' := Loop.play loaded
              [Loop.Call refreshProfile;
               Loop.Settle 0 (Resolved (found profileC));
               Loop.Settle 0 (Resolved (failed permission_denied));
               Loop.Settle 0 (Resolved JUndefined)] in
  (Loop.tasks loaded = [] /\
   profile (Loop.store loaded) = profileA /\
   organization (Loop.store loaded) = orgA) /\
  (Loop.tasks m = [] /\
   profile (Loop.store m) = profileB /\
   field (profile (Loop.store m)) "org_id" = JNull /\
   organization (Loop.store m) = orgA /\
   error (Loop.store m) = JNull /\
   Loop.network m =
     [AuthGetSession;
      FromSelectSingle (lit "profiles") (str "u1");
      FromSelectSingle (lit "organizations") (str "o1");
      FromSelectSingle (lit "profiles") (str "u1")]) /\
  (Loop.tasks m' = [] /\
   profile (Loop.store m') = profileC /\
   field (profile (Loop.store m')) "org_id" = str "o2" /\
   organization (Loop.store m') = orgA /\
   field (organization (Loop.store m')) "id" = str "o1" /\
   error (Loop.store m') = JNull).
Proof.
  vm_compute. repeat split.
Qed.

End ProfileLoader.

(* ================================================================== *)
(** * AuthStateMachine *)
(* ================================================================== *)

Module AuthStateMachine.

Import AuthContext Outcomes.

(** The handler does all its work for [SIGNED_OUT] in one synchronous
    stretch. *)
Lemma signed_out_clears (s : Store) :
  mounted s = true ->
  run (onAuthStateChange (str "SIGNED_OUT") JNull) s =
  (setLoading false
     (set_loadingProfileRef false
        (set_profileLoadedRef false
           (setOrganization JNull
              (setProfile JNull (setUser JNull (setSession JNull s)))))),
   Done (Resolved JUndefined)).
Proof.
  intros H. unfold onAuthStateChange. cbn. rewrite H. reflexivity.
Qed.

(** The rest of a load that is suspended on the fetch of the profile.
    Resumed in a store [s2] with a profile, the load writes the profile to
    [s2] and nothing else; it then either ends,
    setting the loaded flag and clearing the guard, or, when the profile has
    an [org_id], suspends on the fetch of that organization, whose answer it
    writes to whatever store it resumes in, unless the answer is an error. *)
Lemma late_load_resumes (userId r : jsval) (s0 s1 : Store) req k :
  run (loadUserProfile userId) s0 = (s1, Blocked req k) ->
  is_nullish r = false ->
  truthy (field r "error") = false ->
  forall s2,
    if truthy (opt_prop (field r "data") "org_id")
    then exists k',
        run (k (Resolved r)) s2 =
        (setProfile (field r "data") s2,
         Blocked (FromSelectSingle (lit "organizations")
                    (field (field r "data") "org_id")) k') /\
        forall r' s3,
          is_nullish r' = false ->
          run (k' (Resolved r')) s3 =
          (set_loadingProfileRef false
             (set_profileLoadedRef true
                (if truthy (field r' "error") then s3
                 else setOrganization (field r' "data") s3)),
           Done (Resolved JUndefined))
    else run (k (Resolved r)) s2 =
         (set_loadingProfileRef false
            (set_profileLoadedRef true (setProfile (field r "data") s2)),
          Done (Resolved JUndefined)).
Proof.
  intros Hrun Hr He s2.
  unfold loadUserProfile in Hrun. cbn in Hrun.
  destruct (loadingProfileRef s0); cbn in Hrun; [discriminate|].
  unfold try_catch_finally in Hrun. cbn in Hrun.
  injection Hrun as _ _ <-.
  cbn. unfold prop. rewrite Hr. cbn. rewrite He. cbn.
  destruct (truthy (opt_prop (field r "data") "org_id")) eqn:Ho; cbn.
  - eexists. split; [reflexivity|].
    intros r' s3 Hr'. cbn. rewrite Hr'. cbn.
    destruct (truthy (field r' "error")); reflexivity.
  - reflexivity.
Qed.

(** C1 as the specification states it does not hold on this trace: the
    component is mounted without a session, [SIGNED_IN] arrives, the timer
    fires and the load suspends on the fetch of the profile; [SIGNED_OUT]
    arrives and clears the state; then the fetch returns [profileA] and the
    fetch of its organization returns [orgA].  The late results are applied:
    the state ends signed out (no user, no session) with a profile and an
    organization. *)
Lemma late_load_overtakes_sign_out :
  let m1 := Loop.play (Loop.boot initialStore)
              [Loop.Call mount;
               Loop.Settle 0 (Resolved (sessionReply JNull));
               Loop.Call (onAuthStateChange (str "SIGNED_IN") session1);
               Loop.FireTimer 0;
               Loop.Call (onAuthStateChange (str "SIGNED_OUT") JNull)] in
  let m2 := Loop.play m1
              [Loop.Settle 0 (Resolved (found profileA));
               Loop.Settle 0 (Resolved (found orgA));
               Loop.Settle 0 (Resolved JUndefined)] in
  (map Loop.waiting (Loop.tasks m1) = [FromSelectSingle (lit "profiles") (str "u1")] /\
   user (Loop.store m1) = JNull /\
   session (Loop.store m1) = JNull /\
   profile (Loop.store m1) = JNull /\
   organization (Loop.store m1) = JNull /\
   loading (Loop.store m1) = false) /\
  (Loop.tasks m2 = [] /\
   user (Loop.store m2) = JNull /\
   session (Loop.store m2) = JNull /\
   profile (Loop.store m2) = profileA /\
   organization (Loop.store m2) = orgA /\
   profile (Loop.store m2) <> JNull /\
   organization (Loop.store m2) <> JNull).
Proof.
  vm_compute. repeat split; discriminate.
Qed.

(** C1, amended. Let a profile load be in flight in the mounted component
    when [SIGNED_OUT] is delivered with a null session.  The handler
    publishes user, session, profile and organization [null] and [loading]
    false in one synchronous stretch, clears both load flags and awaits
    nothing; the load stays suspended.  It is not discarded.  When its
    fetch then returns a profile, that profile is written into the state the
    sign-out left, which is otherwise unchanged: user and session stay
    [null].  When the profile has no [org_id] the load ends there.  When it
    has one, the load goes on to fetch that organization, and the answer,
    unless it is an error, is written as the organization, again with
    nothing else changed but the two load flags. *)
Theorem sign_out_then_late_load (userId r r' : jsval) (s : Store) :
  mounted s = true ->
  loadingProfileRef s = false ->
  is_nullish r = false ->
  truthy (field r "error") = false ->
  is_nullish r' = false ->
  let m0 := Loop.step (Loop.boot s) (Loop.Call (loadUserProfile userId)) in
  let m1 := Loop.step m0 (Loop.Call (onAuthStateChange (str "SIGNED_OUT") JNull)) in
  let m2 := Loop.step m1 (Loop.Settle 0 (Resolved r)) in
  let m3 := Loop.step m2 (Loop.Settle 0 (Resolved r')) in
  (map Loop.waiting (Loop.tasks m1) = [FromSelectSingle (lit "profiles") userId] /\
   Loop.network m1 = [FromSelectSingle (lit "profiles") userId] /\
   Loop.finished m1 = [Resolved JUndefined] /\
   user (Loop.store m1) = JNull /\
   session (Loop.store m1) = JNull /\
   profile (Loop.store m1) = JNull /\
   organization (Loop.store m1) = JNull /\
   loading (Loop.store m1) = false /\
   loadingProfileRef (Loop.store m1) = false /\
   profileLoadedRef (Loop.store m1) = false) /\
  (profile (Loop.store m2) = field r "data" /\
   user (Loop.store m2) = JNull /\
   session (Loop.store m2) = JNull /\
   organization (Loop.store m2) = JNull /\
   loading (Loop.store m2) = false /\
   error (Loop.store m2) = error s) /\
  if truthy (opt_prop (field r "data") "org_id")
  then Loop.store m2 = setProfile (field r "data") (Loop.store m1) /\
       map Loop.waiting (Loop.tasks m2) =
         [FromSelectSingle (lit "organizations") (field (field r "data") "org_id")] /\
       Loop.store m3 =
         set_loadingProfileRef false
           (set_profileLoadedRef true
              (if truthy (field r' "error") then Loop.store m2
               else setOrganization (field r' "data") (Loop.store m2))) /\
       Loop.tasks m3 = [] /\
       Loop.finished m3 = [Resolved JUndefined; Resolved JUndefined] /\
       profile (Loop.store m3) = field r "data" /\
       organization (Loop.store m3) =
         (if truthy (field r' "error") then JNull else field r' "data") /\
       user (Loop.store m3) = JNull /\
       session (Loop.store m3) = JNull
  else Loop.store m2 =
         set_loadingProfileRef false
           (set_profileLoadedRef true (setProfile (field r "data") (Loop.store m1))) /\
       Loop.tasks m2 = [] /\
       Loop.finished m2 = [Resolved JUndefined; Resolved JUndefined].
Proof.
  intros Hm Hg Hr He Hr' m0 m1 m2 m3.
  destruct (ProfileLoader.load_unguarded_fetches userId s Hg) as [k Hk].
  set (s1 := setLoading false
               (set_loadingProfileRef false
                  (set_profileLoadedRef false
                     (setOrganization JNull
                        (setProfile JNull
                           (setUser JNull
                              (setSession JNull (set_loadingProfileRef true s)))))))).
  assert (E0 : m0 = Loop.mkMachine (set_loadingProfileRef true s)
                      [Loop.mkTask (FromSelectSingle (lit "profiles") userId) k]
                      [FromSelectSingle (lit "profiles") userId] []).
  { subst m0. unfold Loop.step, Loop.advance, Loop.boot. cbn [Loop.store].
    rewrite Hk. reflexivity. }
  assert (E1 : m1 = Loop.mkMachine s1
                      [Loop.mkTask (FromSelectSingle (lit "profiles") userId) k]
                      [FromSelectSingle (lit "profiles") userId]
                      [Resolved JUndefined]).
  { subst m1. rewrite E0. unfold Loop.step, Loop.advance. cbn [Loop.store].
    rewrite (signed_out_clears (set_loadingProfileRef true s) Hm). reflexivity. }
  pose proof (late_load_resumes userId r s _ _ k Hk Hr He s1) as Hlate.
  split; [rewrite E1; repeat split|].
  destruct (truthy (opt_prop (field r "data") "org_id")).
  - destruct Hlate as (k' & Hk' & Hnext).
    assert (E2 : m2 = Loop.mkMachine (setProfile (field r "data") s1)
                        [Loop.mkTask (FromSelectSingle (lit "organizations")
                                        (field (field r "data") "org_id")) k']
                        [FromSelectSingle (lit "profiles") userId;
                         FromSelectSingle (lit "organizations")
                           (field (field r "data") "org_id")]
                        [Resolved JUndefined]).
    { subst m2. rewrite E1. unfold Loop.step.
      cbn [Loop.tasks nth_error Loop.resume Loop.remove_nth Loop.store Loop.network
           Loop.finished].
      unfold Loop.advance. cbn [Loop.store]. rewrite Hk'. reflexivity. }
    assert (E3 : m3 = Loop.mkMachine
                        (set_loadingProfileRef false
                           (set_profileLoadedRef true
                              (if truthy (field r' "error")
                               then setProfile (field r "data") s1
                               else setOrganization (field r' "data")
                                      (setProfile (field r "data") s1))))
                        [] 
                        [FromSelectSingle (lit "profiles") userId;
                         FromSelectSingle (lit "organizations")
                           (field (field r "data") "org_id")]
                        [Resolved JUndefined; Resolved JUndefined]).
    { subst m3. rewrite E2. unfold Loop.step.
      cbn [Loop.tasks nth_error Loop.resume Loop.remove_nth Loop.store Loop.network
           Loop.finished].
      unfold Loop.advance. cbn [Loop.store].
      rewrite (Hnext r' (setProfile (field r "data") s1) Hr'). reflexivity. }
    rewrite E3, E2, E1. cbn [Loop.store Loop.tasks Loop.finished map Loop.waiting].
    destruct (truthy (field r' "error")); repeat split.
  - assert (E2 : m2 = Loop.mkMachine
                        (set_loadingProfileRef false
                           (set_profileLoadedRef true (setProfile (field r "data") s1)))
                        [] [FromSelectSingle (lit "profiles") userId]
                        [Resolved JUndefined; Resolved JUndefined]).
    { subst m2. rewrite E1. unfold Loop.step.
      cbn [Loop.tasks nth_error Loop.resume Loop.remove_nth Loop.store Loop.network
           Loop.finished].
      unfold Loop.advance. cbn [Loop.store]. rewrite Hlate. reflexivity. }
    rewrite E2, E1. repeat split.
Qed.

(** A load for [u1] in flight and the sign-out; then the fetch answering
    [profileB], which has no organization, or answering [profileA] and the
    fetch of its organization answering [orgA]. *)
Lemma sign_out_then_late_load_witness :
  let m0 := Loop.step (Loop.boot (setUser user1 mountedStore))
                      (Loop.Call (loadUserProfile (str "u1"))) in
  let m1 := Loop.step m0 (Loop.Call (onAuthStateChange (str "SIGNED_OUT") JNull)) in
  let m2 := Loop.step m1 (Loop.Settle 0 (Resolved (found profileB))) in
  let m2' := Loop.step m1 (Loop.Settle 0 (Resolved (found profileA))) in
  let m3' := Loop.step m2' (Loop.Settle 0 (Resolved (found orgA))) in
  (profile (Loop.store m1) = JNull /\
   profile (Loop.store m2) = profileB /\
   user (Loop.store m2) = JNull /\
   Loop.tasks m2 = []) /\
  (profile (Loop.store m3') = profileA /\
   organization (Loop.store m3') = orgA /\
   user (Loop.store m3') = JNull /\
   session (Loop.store m3') = JNull).
Proof.
  pose proof (sign_out_then_late_load (str "u1") (found profileB) (found orgA)
                (setUser user1 mountedStore) eq_refl eq_refl eq_refl eq_refl eq_refl) as H.
  pose proof (sign_out_then_late_load (str "u1") (found profileA) (found orgA)
                (setUser user1 mountedStore) eq_refl eq_refl eq_refl eq_refl eq_refl) as H'.
  cbv zeta in H, H'. cbv zeta.
  destruct H as ((_ & _ & _ & _ & _ & H1 & _) & (H2 & H3 & _) & H4).
  destruct H' as (_ & _ & H5).
  change (truthy (opt_prop (field (found profileB) "data") "org_id")) with false in H4.
  change (truthy (opt_prop (field (found profileA) "data") "org_id")) with true in H5.
  cbv iota in H4, H5.
  destruct H4 as (_ & H4 & _).
  destruct H5 as (_ & _ & _ & _ & _ & H6 & H7 & H8 & H9).
  split; [repeat split; assumption|].
  repeat split; assumption.
Defined.

End AuthStateMachine.

(* ================================================================== *)
(** * SignupGuard *)
(* ================================================================== *)

Module SignupGuard.

Import AuthContext Outcomes.

(** A call that finds a signup in flight returns the error of line 134 at
    once: the store is as it was and nothing was awaited. *)
Lemma signUp_guarded helper email password metadata (s : Store) :
  signingUpRef s = true ->
  run (signUp helper email password metadata) s =
  (s, Done (Resolved signup_in_progress)).
Proof.
  intros H. unfold signUp. cbn. rewrite H. reflexivity.
Qed.

(** However the call ends, the flag is clear afterwards. *)
Lemma signUp_releases (w : World) helper email password metadata (s : Store) (n : nat) :
  signingUpRef s = false ->
  signingUpRef (final (exec w (signUp helper email password metadata) s n)) = false.
Proof.
  intros H. unfold signUp. rewrite exec_async_final.
  cbn. rewrite H. cbn.
  unfold try_catch_finally.
  rewrite (exec_try_finally_final w _ _
             (fun s0 => set_signingUpRef false (setLoading false s0)));
    [reflexivity | intros s0 n0; reflexivity].
Qed.

(** With the helper of the client module, or with none, a call that passed
    the guard is suspended with the flag set. *)
Lemma signUp_suspends_flagged helper email password metadata (s : Store) :
  helper = None \/ helper = Some SupabaseClient.checkEmailExists ->
  signingUpRef s = false ->
  exists r k,
    run (signUp helper email password metadata) s =
    (setLoading true (set_signingUpRef true s), Blocked r k).
Proof.
  intros [-> | ->] H; unfold signUp; cbn; rewrite H; cbn;
    unfold try_catch_finally; cbn.
  - do 2 eexists. reflexivity.
  - unfold SupabaseClient.checkEmailExists. cbn.
    destruct (truthy email); cbn; do 2 eexists; reflexivity.
Qed.

Lemma signUp_twice helper email password metadata (s : Store) :
  helper = None \/ helper = Some SupabaseClient.checkEmailExists ->
  signingUpRef s = false ->
  let call := Loop.Call (signUp helper email password metadata) in
  let m1 := Loop.step (Loop.boot s) call in
  let m2 := Loop.step m1 call in
  List.length (Loop.tasks m1) = 1 /\
  Loop.store m2 = Loop.store m1 /\
  Loop.tasks m2 = Loop.tasks m1 /\
  Loop.network m2 = Loop.network m1 /\
  Loop.finished m2 = [Resolved signup_in_progress].
Proof.
  intros Hh H call m1 m2.
  destruct (signUp_suspends_flagged helper email password metadata s Hh H) as (r & k & Hk).
  assert (E : m1 = Loop.mkMachine (setLoading true (set_signingUpRef true s))
                     [Loop.mkTask r k]
                     (if is_network r then [r] else []) []).
  { subst m1 call. unfold Loop.step, Loop.advance, Loop.boot. cbn [Loop.store].
    rewrite Hk. reflexivity. }
  subst m2 call. rewrite E. unfold Loop.step, Loop.advance. cbn [Loop.store].
  rewrite signUp_guarded by reflexivity.
  repeat split.
Qed.

(** C5. SignupGuard's flag: a call to [signUp] that finds a signup in
    flight returns the in-progress error at once, with the store as it was
    and no request made (neither the pre-check nor the provider); of two
    calls in a row the second changes nothing and gets that error; and a
    call that passed the guard leaves the flag clear when it ends, in every
    world, that is on every path. *)
Theorem signup_guard (w : World) (helper : option (jsval -> Prog Settled))
    (email password metadata : jsval) (s : Store) (n : nat) :
  (signingUpRef s = true ->
   run (signUp helper email password metadata) s =
   (s, Done (Resolved signup_in_progress))) /\
  (signingUpRef s = false ->
   signingUpRef (final (exec w (signUp helper email password metadata) s n)) = false) /\
  (signingUpRef s = false ->
   helper = None \/ helper = Some SupabaseClient.checkEmailExists ->
   let call := Loop.Call (signUp helper email password metadata) in
   let m1 := Loop.step (Loop.boot s) call in
   let m2 := Loop.step m1 call in
   List.length (Loop.tasks m1) = 1 /\
   Loop.store m2 = Loop.store m1 /\
   Loop.tasks m2 = Loop.tasks m1 /\
   Loop.network m2 = Loop.network m1 /\
   Loop.finished m2 = [Resolved signup_in_progress]).
Proof.
  split; [|split].
  - apply signUp_guarded.
  - apply signUp_releases.
  - intros H Hh. now apply signUp_twice.
Qed.

(** The flag at work: a call on a busy store, a call whose provider request
    is rejected, and two calls in a row. *)
Lemma signup_guard_witness :
  run (signUp_here (str "a@example.com") (str "pw") JUndefined) busyStore =
    (busyStore, Done (Resolved signup_in_progress)) /\
  signingUpRef
    (final (exec (scripted [Resolved (found (JBool false)); Resolved JUndefined;
                            Rejected (str "offline")])
                 (signUp_here (str "a@example.com") (str "pw") JUndefined)
                 mountedStore 0)) = false /\
  Loop.finished
    (Loop.play (Loop.boot mountedStore)
       [Loop.Call (signUp_here (str "a@example.com") (str "pw") JUndefined);
        Loop.Call (signUp_here (str "a@example.com") (str "pw") JUndefined)]) =
    [Resolved signup_in_progress].
Proof.
  split; [|split].
  - apply (proj1 (signup_guard (scripted []) (Some SupabaseClient.checkEmailExists)
                    (str "a@example.com") (str "pw") JUndefined busyStore 0)).
    reflexivity.
  - apply (proj1 (proj2 (signup_guard
                    (scripted [Resolved (found (JBool false)); Resolved JUndefined;
                               Rejected (str "offline")])
                    (Some SupabaseClient.checkEmailExists)
                    (str "a@example.com") (str "pw") JUndefined mountedStore 0))).
    reflexivity.
  - apply (proj2 (proj2 (signup_guard (scripted []) (Some SupabaseClient.checkEmailExists)
                    (str "a@example.com") (str "pw") JUndefined mountedStore 0))).
    + reflexivity.
    + right. reflexivity.
Defined.

(** What the call does around the pre-check, for any helper. *)
Lemma signUp_precheck (w : World) (h : jsval -> Prog Settled)
    (email password metadata : jsval) (s : Store) (n : nat) :
  signingUpRef s = false ->
  let oh := exec w (h email) (setLoading true (set_signingUpRef true s)) n in
  let o := exec w (signUp (Some h) email password metadata) s n in
  (result oh = Resolved (JBool true) ->
   result o = Resolved email_exists_by_precheck /\
   requests o = requests oh ++ [Tick]) /\
  (result oh <> Resolved (JBool true) ->
   exists rest,
     requests o =
     requests oh ++ Tick :: AuthSignUp (credentials email password metadata) :: rest).
Proof.
  intros H oh o. subst o. unfold signUp, requests.
  cbn. rewrite H. cbn.
  unfold try_catch_finally, try_finally, try_catch, seq, await_call, async.
  repeat rewrite exec_bind_assoc.
  rewrite exec_bind.
  fold oh.
  destruct oh as [sf rf hf nf]. cbn.
  split; intros Hr.
  - subst rf. cbn. split; [reflexivity|].
    rewrite map_app. reflexivity.
  - destruct rf as [v|e]; cbn.
    + destruct (strict_eq v (JBool true)) eqn:E.
      * exfalso. apply Hr. f_equal. now apply strict_eq_true_inv.
      * cbn. eexists. rewrite map_app. cbn. reflexivity.
    + eexists. rewrite map_app. cbn. reflexivity.
Qed.

Lemma signUp_no_helper (w : World) (email password metadata : jsval) (s : Store) (n : nat) :
  signingUpRef s = false ->
  exists rest,
    requests (exec w (signUp None email password metadata) s n) =
    AuthSignUp (credentials email password metadata) :: rest.
Proof.
  intros H. unfold signUp, requests. cbn. rewrite H. cbn.
  unfold try_catch_finally. cbn.
  eexists. reflexivity.
Qed.

(** C7. The pre-check of [signUp], for any helper [h] found at line 141:
    when the call [h email] resolves with [true], [signUp] resolves with the
    EMAIL_EXISTS error of lines 151 to 157 and awaits nothing beyond what the
    helper awaited (the provider's create-account operation is not called);
    when the helper rejects, or resolves with anything else, the
    create-account operation is the next request; and when there is no helper
    it is the first. *)
Theorem precheck_then_provider (w : World) (h : jsval -> Prog Settled)
    (email password metadata : jsval) (s : Store) (n : nat) :
  signingUpRef s = false ->
  let oh := exec w (h email) (setLoading true (set_signingUpRef true s)) n in
  let o := exec w (signUp (Some h) email password metadata) s n in
  (result oh = Resolved (JBool true) ->
   result o = Resolved email_exists_by_precheck /\
   requests o = requests oh ++ [Tick]) /\
  (result oh <> Resolved (JBool true) ->
   exists rest,
     requests o =
     requests oh ++ Tick :: AuthSignUp (credentials email password metadata) :: rest) /\
  (exists rest,
     requests (exec w (signUp None email password metadata) s n) =
     AuthSignUp (credentials email password metadata) :: rest).
Proof.
  intros H oh o.
  destruct (signUp_precheck w h email password metadata s n H) as [Ht Hf].
  split; [exact Ht | split; [exact Hf |]].
  now apply signUp_no_helper.
Qed.

(** The pre-check answering [true] for a taken address, and a helper that
    rejects. *)
Lemma precheck_then_provider_witness :
  (let o := exec (scripted [Resolved (found (JBool true)); Resolved JUndefined])
                 (signUp_here (str "taken@example.com") (str "x") JUndefined)
                 mountedStore 0 in
   result o = Resolved email_exists_by_precheck /\
   requests o =
     [Rpc (lit "check_email_exists") (obj [("email_to_check", str "taken@example.com")]);
      Tick]) /\
  (exists rest,
     requests (exec (scripted []) (signUp (Some rejecting_helper)
                                     (str "new@example.com") (str "x") JUndefined)
                    mountedStore 0) =
     Tick :: AuthSignUp (credentials (str "new@example.com") (str "x") JUndefined) :: rest).
Proof.
  split.
  - exact (proj1 (precheck_then_provider
                    (scripted [Resolved (found (JBool true)); Resolved JUndefined])
                    SupabaseClient.checkEmailExists
                    (str "taken@example.com") (str "x") JUndefined mountedStore 0
                    eq_refl) eq_refl).
  - refine (proj1 (proj2 (precheck_then_provider
                    (scripted []) rejecting_helper
                    (str "new@example.com") (str "x") JUndefined mountedStore 0
                    eq_refl)) _).
    discriminate.
Defined.

End SignupGuard.

Module SignupClassifier.

Import AuthContext Outcomes.

(** The test of the source and the precedence of the specification agree. *)
Lemma isEmailExists_classify (status : jsval) (text : jsstring) :
  isEmailExists status (JStr text) (toLowerCase text) =
  match classify_spec status text with
  | EMAIL_EXISTS => true
  | Unclassified => false
  end.
Proof.
  unfold isEmailExists, classify_spec, keywords, known_phrasings, str.
  cbn [existsb strict_eq].
  destruct (strict_eq status (JInt 422)), (strict_eq status (JInt 400)); cbn [orb]; try reflexivity.
  destruct (includes (toLowerCase text) (lit "already")),
           (includes (toLowerCase text) (lit "exists")),
           (includes (toLowerCase text) (lit "registered")),
           (includes (toLowerCase text) (lit "duplicate")); cbn [orb]; try reflexivity.
  destruct (JsString.eqb text (lit "User already registered")),
           (JsString.eqb text (lit "Email already registered")),
           (JsString.eqb text (lit "A user with this email already exists"));
    reflexivity.
Qed.

(** A status of 422 or 400 decides, whatever the text. *)
Lemma status_decides (error : jsval) (text : jsstring) (z : Z) :
  z = 422%Z \/ z = 400%Z ->
  strict_eq (field error "status") (JInt z) = true ->
  classify_spec (errorStatus error) text = EMAIL_EXISTS.
Proof.
  intros Hz H. unfold classify_spec, errorStatus, or_else.
  rewrite (strict_eq_int_truthy (field error "status") z) by (try assumption; lia).
  destruct Hz as [-> | ->]; rewrite H; [reflexivity|].
  now rewrite orb_true_r.
Qed.

(** The part of [signUp] after the provider has answered with an error. *)
Lemma signUp_no_helper_answer (w : World) (email password metadata : jsval)
    (s : Store) (n : nat) :
  signingUpRef s = false ->
  let creds := credentials email password metadata in
  let x := fst (w n (AuthSignUp creds) (setLoading true (set_signingUpRef true s))) in
  let o := exec w (signUp None email password metadata) s n in
  sent o = [(AuthSignUp creds, x)] /\
  forall r error text,
    x = Resolved r ->
    is_nullish r = false ->
    field r "error" = error ->
    truthy error = true ->
    errorMessage error = JStr text ->
    result o = Resolved (classified error (classify_spec (errorStatus error) text)).
Proof.
  intros H creds x o. subst o x creds. unfold signUp, credentials.
  cbn. rewrite H. cbn. unfold try_catch_finally, try_finally, try_catch. cbn.
  set (x := fst (w n _ _)). clearbody x. split.
  - f_equal. unfold prop, call_toLowerCase, seq.
    destruct x as [v|e]; exec_cases; reflexivity.
  - intros r error text -> Hr <- He Hm. cbn.
    unfold prop. rewrite Hr. cbn. rewrite He. cbn.
    fold (errorMessage (field r "error")). rewrite Hm. cbn.
    fold (errorStatus (field r "error")).
    rewrite isEmailExists_classify.
    destruct (classify_spec _ text); reflexivity.
Qed.

Lemma signUp_after_precheck (w : World) (h : jsval -> Prog Settled)
    (email password metadata : jsval) (s : Store) (n : nat) :
  signingUpRef s = false ->
  let oh := exec w (h email) (setLoading true (set_signingUpRef true s)) n in
  let tick := w (steps oh) Tick (final oh) in
  let creds := credentials email password metadata in
  let x := fst (w (S (steps oh)) (AuthSignUp creds) (snd tick)) in
  let o := exec w (signUp (Some h) email password metadata) s n in
  result oh <> Resolved (JBool true) ->
  sent o = sent oh ++ [(Tick, fst tick); (AuthSignUp creds, x)] /\
  forall r error text,
    x = Resolved r ->
    is_nullish r = false ->
    field r "error" = error ->
    truthy error = true ->
    errorMessage error = JStr text ->
    result o = Resolved (classified error (classify_spec (errorStatus error) text)).
Proof.
  intros H oh tick creds x o Hr. subst o. unfold signUp.
  cbn. rewrite H. cbn.
  unfold try_catch_finally, try_finally, try_catch, seq, await_call, async.
  repeat rewrite exec_bind_assoc.
  rewrite exec_bind.
  fold oh.
  assert (Hpre : match result oh with
                 | Resolved v => strict_eq v (JBool true) = false
                 | Rejected _ => True
                 end).
  { destruct (result oh) as [v|e]; [|exact I].
    destruct (strict_eq v (JBool true)) eqn:E; [|reflexivity].
    exfalso. apply Hr. f_equal. now apply strict_eq_true_inv. }
  subst tick x creds. unfold credentials.
  destruct oh as [sf rf hf nf]. cbn in *.
  destruct rf as [v|e]; cbn; [rewrite Hpre; cbn|].
  all: set (x := fst (w (S nf) _ _)); clearbody x.
  all: split;
    [ f_equal; do 2 f_equal; unfold prop, call_toLowerCase;
      destruct x as [v'|e']; exec_cases; reflexivity
    | intros r error text -> Hnr <- He Hm; cbn;
      unfold prop; rewrite Hnr; cbn; rewrite He; cbn;
      fold (errorMessage (field r "error")); rewrite Hm; cbn;
      fold (errorStatus (field r "error"));
      rewrite isEmailExists_classify;
      destruct (classify_spec _ text); reflexivity ].
Qed.

(** The helper of the client module never calls the provider's
    create-account operation. *)
Lemma checkEmailExists_requests (w : World) (email : jsval) (s : Store) (n : nat) :
  existsb is_signUp_request
          (requests (exec w (SupabaseClient.checkEmailExists email) s n)) = false.
Proof.
  unfold SupabaseClient.checkEmailExists, requests, prop, try_catch.
  destruct (truthy email); cbn; [|reflexivity].
  set (x := fst (w n _ _)). clearbody x.
  destruct x as [v|e]; exec_cases; reflexivity.
Qed.

Lemma not_a_signUp_request (l : list (Request * Settled)) (c : jsval) (y : Settled) :
  existsb is_signUp_request (map fst l) = false ->
  ~ In (AuthSignUp c, y) l.
Proof.
  induction l as [|[r x] l IH]; simpl; [tauto|].
  intros H [E | HIn].
  - injection E as -> ->. discriminate.
  - apply orb_false_iff in H as [_ H]. now apply IH.
Qed.

(** [includes] finds a word exactly when the string can be cut around it. *)
Lemma startsWith_app (p post : jsstring) : startsWith (p ++ post) p = true.
Proof.
  induction p as [|y p IH]; simpl; [now destruct post|].
  now rewrite N.eqb_refl, IH.
Qed.

Lemma includes_app (pre p post : jsstring) : includes (pre ++ p ++ post) p = true.
Proof.
  induction pre as [|x pre IH].
  - simpl app. generalize (startsWith_app p post).
    destruct (p ++ post); simpl; intros ->; reflexivity.
  - simpl. rewrite IH. apply orb_true_r.
Qed.

Lemma startsWith_inv (s p : jsstring) :
  startsWith s p = true -> exists post, s = p ++ post.
Proof.
  revert s. induction p as [|y p IH]; intros s H.
  - exists s. reflexivity.
  - destruct s as [|x s]; simpl in H; [discriminate|].
    apply andb_true_iff in H as [Hx Hs]. apply N.eqb_eq in Hx. subst y.
    destruct (IH s Hs) as [post ->]. exists post. reflexivity.
Qed.

Lemma includes_inv (s p : jsstring) :
  includes s p = true -> exists pre post, s = pre ++ p ++ post.
Proof.
  induction s as [|x s IH]; simpl; intros H.
  - rewrite orb_false_r in H. destruct (startsWith_inv [] p H) as [post E].
    exists [], post. exact E.
  - apply orb_true_iff in H as [H | H].
    + destruct (startsWith_inv (x :: s) p H) as [post E]. exists [], post. exact E.
    + destruct (IH H) as (pre & post & ->). exists (x :: pre), post. reflexivity.
Qed.

(** Lowering a stretch gives a word without capitals exactly when the
    stretch spells the word up to case. *)
Lemma lowered_same_letter (mid word : jsstring) :
  Forall (fun k => (k < 65)%N \/ (90 < k)%N) word ->
  (map lowerUnit mid = word <-> Forall2 same_letter mid word).
Proof.
  intros Hsmall. split.
  - intros <-. clear Hsmall. induction mid as [|c mid IH]; constructor; [|exact IH].
    unfold same_letter, lowerUnit.
    destruct (65 <=? c)%N eqn:E1; [destruct (c <=? 90)%N eqn:E2|]; simpl.
    + right. apply N.leb_le in E1, E2. auto.
    + now left.
    + now left.
  - intros H. induction H as [|c k mid word Hck _ IH]; [reflexivity|].
    inversion Hsmall as [|? ? Hk Hrest]; subst. simpl. f_equal; [|now apply IH].
    unfold lowerUnit. destruct Hck as [-> | (H1 & H2 & ->)].
    + destruct (65 <=? k)%N eqn:E1; [destruct (k <=? 90)%N eqn:E2|]; simpl; try reflexivity.
      apply N.leb_le in E1, E2. lia.
    + apply N.leb_le in H1, H2. now rewrite H1, H2.
Qed.

(** The search of the source, [errorLower.includes(word)], is containment
    ignoring case for a word without capitals. *)
Lemma includes_lowered (text word : jsstring) :
  Forall (fun k => (k < 65)%N \/ (90 < k)%N) word ->
  (includes (toLowerCase text) word = true <-> contains_ignoring_case text word).
Proof.
  intros Hsmall. unfold toLowerCase, contains_ignoring_case. split.
  - intros H. destruct (includes_inv _ _ H) as (pre & post & E).
    apply map_eq_app in E as (pre' & rest & -> & Hpre & E).
    apply map_eq_app in E as (mid & post' & -> & Hmid & Hpost).
    exists pre', mid, post'. split; [reflexivity|].
    now apply (lowered_same_letter mid word Hsmall).
  - intros (pre & mid & post & -> & H).
    apply (lowered_same_letter mid word Hsmall) in H.
    rewrite !map_app, H. apply includes_app.
Qed.

Lemma keywords_small :
  Forall (Forall (fun k => (k < 65)%N \/ (90 < k)%N)) keywords.
Proof.
  unfold keywords. repeat (apply Forall_cons || apply Forall_nil).
  all: vm_compute; repeat (apply Forall_cons || apply Forall_nil); right; reflexivity.
Qed.

(** The keyword tier of the precedence, said with containment ignoring
    case. *)
Lemma keyword_tier (text : jsstring) :
  existsb (includes (toLowerCase text)) keywords = true <->
  exists kw, In kw keywords /\ contains_ignoring_case text kw.
Proof.
  rewrite existsb_exists. split; intros (kw & HIn & H); exists kw; (split; [exact HIn|]).
  - apply includes_lowered; [|exact H].
    exact (proj1 (Forall_forall _ _) keywords_small kw HIn).
  - apply includes_lowered; [|exact H].
    exact (proj1 (Forall_forall _ _) keywords_small kw HIn).
Qed.

(** Each known phrasing has a keyword in it, so the third tier of the
    precedence never decides. *)
Lemma phrasing_has_keyword (text : jsstring) :
  existsb (JsString.eqb text) known_phrasings = true ->
  existsb (includes (toLowerCase text)) keywords = true.
Proof.
  rewrite existsb_exists. intros (p & HIn & H).
  apply JsStringFacts.eqb_eq in H. subst p.
  unfold known_phrasings in HIn.
  destruct HIn as [<- | [<- | [<- | []]]]; vm_compute; reflexivity.
Qed.

(** The text [signUp] classifies: the message when it is a string, and the
    empty string when the message is missing or falsy. *)
Lemma message_text (error : jsval) (text : jsstring) :
  field error "message" = JStr text \/
  (truthy (field error "message") = false /\ text = []) ->
  errorMessage error = JStr text.
Proof.
  unfold errorMessage, or_else. intros [-> | [-> ->]]; [|reflexivity].
  destruct text; reflexivity.
Qed.

(** C6. When the provider's create-account operation answers [signUp]
    with an error, [signUp] classifies it by the precedence of the
    specification, where the status code is [error.status || error.code ||
    ''] of line 174 and the text is [error.message] when that is a string,
    and empty when it is missing or falsy.  A status code of 422 or 400 gives
    EMAIL_EXISTS, whatever the text.  Otherwise a text that contains one of
    already, exists, registered, duplicate, in whatever letter case, gives
    EMAIL_EXISTS.  So does a known phrasing.  Otherwise, that is with
    another status code and none of the keywords in the text, the
    provider's error is returned as it came.  The helper is the one of the
    client module, or none. *)
Theorem provider_error_classification (w : World)
    (helper : option (jsval -> Prog Settled))
    (email password metadata : jsval) (s : Store) (n : nat)
    (c r error : jsval) (text : jsstring) :
  helper = None \/ helper = Some SupabaseClient.checkEmailExists ->
  signingUpRef s = false ->
  let o := exec w (signUp helper email password metadata) s n in
  In (AuthSignUp c, Resolved r) (sent o) ->
  is_nullish r = false ->
  field r "error" = error ->
  truthy error = true ->
  field error "message" = JStr text \/
  (truthy (field error "message") = false /\ text = []) ->
  let status := or_else (field error "status") (or_else (field error "code") (JStr [])) in
  result o = Resolved (classified error (classify_spec status text)) /\
  (strict_eq (field error "status") (JInt 422) = true \/
   strict_eq (field error "status") (JInt 400) = true ->
   result o = Resolved (email_exists_by_provider error)) /\
  (strict_eq status (JInt 422) = true \/ strict_eq status (JInt 400) = true ->
   result o = Resolved (email_exists_by_provider error)) /\
  ((exists kw, In kw keywords /\ contains_ignoring_case text kw) ->
   result o = Resolved (email_exists_by_provider error)) /\
  (In text known_phrasings ->
   result o = Resolved (email_exists_by_provider error)) /\
  (strict_eq status (JInt 422) = false ->
   strict_eq status (JInt 400) = false ->
   (forall kw, In kw keywords -> ~ contains_ignoring_case text kw) ->
   result o = Resolved (passed_through error)).
Proof.
  intros Hh Hs o HIn Hr Herr He Htext status.
  pose proof (message_text error text Htext) as Hm.
  assert (Hres : result o =
                 Resolved (classified error (classify_spec (errorStatus error) text))).
  { subst o. destruct Hh as [-> | ->].
    - destruct (signUp_no_helper_answer w email password metadata s n Hs) as [Hsent Hres].
      rewrite Hsent in HIn. destruct HIn as [E | []].
      injection E as _ Hx.
      now apply (Hres r error text).
    - pose proof (checkEmailExists_requests w email
                    (setLoading true (set_signingUpRef true s)) n) as Hno.
      destruct (SignupGuard.signUp_precheck w SupabaseClient.checkEmailExists
                  email password metadata s n Hs) as [Hyes _].
      destruct (signUp_after_precheck w SupabaseClient.checkEmailExists
                  email password metadata s n Hs) as [Hsent Hres].
      + intros Htrue. exfalso.
        destruct (Hyes Htrue) as [_ Hreq].
        apply (in_map fst) in HIn. unfold requests in Hreq.
        rewrite Hreq in HIn. cbn [fst] in HIn.
        apply in_app_or in HIn as [HIn | [E | []]]; [|discriminate].
        apply in_map_iff in HIn as [[r0 x0] [E HIn]].
        cbn in E. subst r0.
        now apply (not_a_signUp_request _ c x0 Hno).
      + rewrite Hsent in HIn.
        apply in_app_or in HIn as [HIn | [E | [E | []]]].
        * exfalso. now apply (not_a_signUp_request _ c (Resolved r) Hno).
        * discriminate.
        * injection E as _ Hx. now apply (Hres r error text). }
  change (errorStatus error) with status in Hres.
  split; [exact Hres|].
  split; [|split; [|split; [|split]]].
  - intros H422. rewrite Hres. fold (errorStatus error) in status. subst status.
    rewrite (status_decides error text
               (if strict_eq (field error "status") (JInt 422) then 422%Z else 400%Z)).
    + reflexivity.
    + destruct (strict_eq (field error "status") (JInt 422)); auto.
    + destruct (strict_eq (field error "status") (JInt 422)) eqn:E; [exact E|].
      destruct H422 as [H422 | H400]; [discriminate | exact H400].
  - intros Hst. rewrite Hres. unfold classify_spec.
    destruct Hst as [-> | ->]; [reflexivity|]. now rewrite orb_true_r.
  - intros Hkw. rewrite Hres. unfold classify_spec.
    rewrite (proj2 (keyword_tier text) Hkw).
    now destruct (strict_eq status (JInt 422) || strict_eq status (JInt 400)).
  - intros Hp. rewrite Hres. unfold classify_spec.
    assert (Hex : existsb (JsString.eqb text) known_phrasings = true).
    { apply existsb_exists. exists text. split; [exact Hp | apply JsStringFacts.eqb_refl]. }
    rewrite Hex.
    destruct (strict_eq status (JInt 422) || strict_eq status (JInt 400)); [reflexivity|].
    now destruct (existsb (includes (toLowerCase text)) keywords).
  - intros H422 H400 Hno. rewrite Hres. unfold classify_spec.
    rewrite H422, H400. cbn [orb].
    destruct (existsb (includes (toLowerCase text)) keywords) eqn:Ek.
    + exfalso. destruct (proj1 (keyword_tier text) Ek) as (kw & HIn' & Hc).
      exact (Hno kw HIn' Hc).
    + destruct (existsb (JsString.eqb text) known_phrasings) eqn:Ep; [|reflexivity].
      rewrite (phrasing_has_keyword text Ep) in Ek. discriminate.
Qed.

(** Four provider errors: status 422 with a message without any keyword;
    status 500 with a known phrasing; status 500 with a keyword in capitals;
    status 500 with none of them. *)
Lemma provider_error_classification_witness :
  let answer error :=
    result (exec (scripted [Resolved (failed error)])
                 (signUp None (str "a@example.com") (str "pw") JUndefined)
                 mountedStore 0) in
  answer error422 = Resolved (email_exists_by_provider error422) /\
  answer (error500 "User already registered") =
    Resolved (email_exists_by_provider (error500 "User already registered")) /\
  answer (error500 "EMAIL ADDRESS IS A DUPLICATE") =
    Resolved (email_exists_by_provider (error500 "EMAIL ADDRESS IS A DUPLICATE")) /\
  answer (error500 "Password should be at least 6 characters") =
    Resolved (passed_through (error500 "Password should be at least 6 characters")).
Proof.
  cbv zeta. split; [|split; [|split]].
  - destruct (provider_error_classification
                (scripted [Resolved (failed error422)]) None
                (str "a@example.com") (str "pw") JUndefined mountedStore 0
                (credentials (str "a@example.com") (str "pw") JUndefined)
                (failed error422) error422 (lit "Database error saving new user")
                (or_introl eq_refl) eq_refl (or_introl eq_refl)
                eq_refl eq_refl eq_refl (or_introl eq_refl))
      as (_ & H & _).
    apply H. left. reflexivity.
  - destruct (provider_error_classification
                (scripted [Resolved (failed (error500 "User already registered"))]) None
                (str "a@example.com") (str "pw") JUndefined mountedStore 0
                (credentials (str "a@example.com") (str "pw") JUndefined)
                (failed (error500 "User already registered"))
                (error500 "User already registered") (lit "User already registered")
                (or_introl eq_refl) eq_refl (or_introl eq_refl)
                eq_refl eq_refl eq_refl (or_introl eq_refl))
      as (_ & _ & _ & H & _).
    apply H. exists (lit "already"). split; [left; reflexivity|].
    exists (lit "User "), (lit "already"), (lit " registered").
    split; [reflexivity|].
    cbv -[same_letter N.le N.add].
    repeat (apply Forall2_cons; [left; reflexivity|]). apply Forall2_nil.
  - destruct (provider_error_classification
                (scripted [Resolved (failed (error500 "EMAIL ADDRESS IS A DUPLICATE"))]) None
                (str "a@example.com") (str "pw") JUndefined mountedStore 0
                (credentials (str "a@example.com") (str "pw") JUndefined)
                (failed (error500 "EMAIL ADDRESS IS A DUPLICATE"))
                (error500 "EMAIL ADDRESS IS A DUPLICATE")
                (lit "EMAIL ADDRESS IS A DUPLICATE")
                (or_introl eq_refl) eq_refl (or_introl eq_refl)
                eq_refl eq_refl eq_refl (or_introl eq_refl))
      as (_ & _ & _ & H & _).
    apply H. exists (lit "duplicate"). split; [do 3 right; left; reflexivity|].
    exists (lit "EMAIL ADDRESS IS A "), (lit "DUPLICATE"), [].
    split; [reflexivity|].
    cbv -[same_letter N.le N.add].
    repeat (apply Forall2_cons;
            [right; repeat split; first [reflexivity | vm_compute; discriminate]|]).
    apply Forall2_nil.
  - destruct (provider_error_classification
                (scripted [Resolved (failed (error500 "Password should be at least 6 characters"))])
                None
                (str "a@example.com") (str "pw") JUndefined mountedStore 0
                (credentials (str "a@example.com") (str "pw") JUndefined)
                (failed (error500 "Password should be at least 6 characters"))
                (error500 "Password should be at least 6 characters")
                (lit "Password should be at least 6 characters")
                (or_introl eq_refl) eq_refl (or_introl eq_refl)
                eq_refl eq_refl eq_refl (or_introl eq_refl))
      as (_ & _ & _ & _ & _ & H).
    apply H; try reflexivity.
    intros kw HIn Hc.
    assert (Ek : existsb (includes (toLowerCase
                   (lit "Password should be at least 6 characters"))) keywords = true)
      by (apply keyword_tier; exists kw; split; assumption).
    vm_compute in Ek. discriminate Ek.
Defined.

End SignupClassifier.

(* ================================================================== *)
(** * QueryDispatcher *)
(* ================================================================== *)

Module QueryDispatcher.

Import SupabaseClient Outcomes.

Section Dispatch.

Variable supabaseUrl supabaseAnonKey : jsstring.
Variable ToString : jsval -> jsstring.
Variable JSON_stringify : jsval -> jsstring.

Lemma defaulted_not_nullish (options : jsval) :
  options <> JNull -> is_nullish (defaulted options) = false.
Proof.
  intros H. destruct options; try reflexivity. now elim H.
Qed.

(** Up to the session check. *)
Lemma dispatch_no_session (w : World) (query verticalId options r : jsval)
    (s s1 : Store) (n : nat) :
  w n AuthGetSession s = (Resolved r, s1) ->
  is_nullish r = false ->
  is_nullish (field r "data") = false ->
  truthy (field (field r "data") "session") = false ->
  let o := exec w (callRagBrain supabaseUrl supabaseAnonKey ToString JSON_stringify
                   query verticalId options) s n in
  result o = Resolved (rag_error msg_unauthenticated) /\
  requests o = [AuthGetSession].
Proof.
  intros Hw Hr Hd Hs o. subst o.
  unfold callRagBrain, requests, try_catch. cbn. rewrite Hw. cbn.
  unfold prop. rewrite Hr. cbn. rewrite Hd. cbn. rewrite Hs. cbn.
  split; reflexivity.
Qed.

Lemma dispatch_blank_query (w : World) (verticalId options r : jsval)
    (q : jsstring) (s s1 : Store) (n : nat) :
  w n AuthGetSession s = (Resolved r, s1) ->
  is_nullish r = false ->
  is_nullish (field r "data") = false ->
  truthy (field (field r "data") "session") = true ->
  trim q = [] ->
  let o := exec w (callRagBrain supabaseUrl supabaseAnonKey ToString JSON_stringify
                   (JStr q) verticalId options) s n in
  result o = Resolved (rag_error msg_empty_query) /\
  requests o = [AuthGetSession].
Proof.
  intros Hw Hr Hd Hs Hq o. subst o.
  unfold callRagBrain, requests, try_catch. cbn. rewrite Hw. cbn.
  unfold prop. rewrite Hr. cbn. rewrite Hd. cbn. rewrite Hs. cbn.
  rewrite (blank_of_trim_nil q Hq). cbn.
  split; reflexivity.
Qed.

Lemma dispatch_blank_vertical (w : World) (options r : jsval)
    (q v : jsstring) (s s1 : Store) (n : nat) :
  w n AuthGetSession s = (Resolved r, s1) ->
  is_nullish r = false ->
  is_nullish (field r "data") = false ->
  truthy (field (field r "data") "session") = true ->
  trim q <> [] ->
  trim v = [] ->
  let o := exec w (callRagBrain supabaseUrl supabaseAnonKey ToString JSON_stringify
                   (JStr q) (JStr v) options) s n in
  result o = Resolved (rag_error msg_vertical_required) /\
  requests o = [AuthGetSession].
Proof.
  intros Hw Hr Hd Hs Hq Hv o. subst o.
  unfold callRagBrain, requests, try_catch. cbn. rewrite Hw. cbn.
  unfold prop. rewrite Hr. cbn. rewrite Hd. cbn. rewrite Hs. cbn.
  rewrite (blank_of_trim_cons q Hq). cbn.
  rewrite (blank_of_trim_nil v Hv). cbn.
  split; reflexivity.
Qed.

(** C8. Validation in [callRagBrain], with the answer of the provider to
    [getSession] well-formed: without a session the call resolves with the
    not-authenticated error; with a session and a query that is empty
    after trimming, with the empty-query error; with a session, a query
    that is not, and a vertical id that is empty after trimming, with the
    vertical-required error.  In each of the three cases the only request
    made is [getSession]: nothing is fetched. *)
Theorem dispatch_validation (w : World) (query verticalId options r : jsval)
    (s s1 : Store) (n : nat) :
  w n AuthGetSession s = (Resolved r, s1) ->
  is_nullish r = false ->
  is_nullish (field r "data") = false ->
  let session := field (field r "data") "session" in
  let o := exec w (callRagBrain supabaseUrl supabaseAnonKey ToString JSON_stringify
                   query verticalId options) s n in
  (truthy session = false ->
   result o = Resolved (rag_error msg_unauthenticated) /\
   requests o = [AuthGetSession]) /\
  (truthy session = true ->
   forall q, query = JStr q -> trim q = [] ->
   result o = Resolved (rag_error msg_empty_query) /\
   requests o = [AuthGetSession]) /\
  (truthy session = true ->
   forall q v, query = JStr q -> trim q <> [] ->
   verticalId = JStr v -> trim v = [] ->
   result o = Resolved (rag_error msg_vertical_required) /\
   requests o = [AuthGetSession]).
Proof.
  intros Hw Hr Hd session o. subst session o.
  split; [|split].
  - intros Hs. now apply (dispatch_no_session w query verticalId options r s s1 n).
  - intros Hs q -> Hq.
    now apply (dispatch_blank_query w verticalId options r q s s1 n).
  - intros Hs q v -> Hq -> Hv.
    now apply (dispatch_blank_vertical w options r q v s s1 n).
Qed.



(** C3. A call that passes validation, whose fetch resolves with an OK
    response and whose body reads [{ success: true, answer, sources,
    processing_time_ms }], resolves with [{ data: { answer, sources,
    processingTime }, error: null }]: the answer and the processing time as
    they came, the sources as they came when they are an array and the
    empty array when there are none.  The store is left as the world left
    it. *)
Theorem dispatch_success (w : World) (options r response data : jsval)
    (q v : jsstring) (s s1 s2 s3 : Store) (n : nat) :
  w n AuthGetSession s = (Resolved r, s1) ->
  is_nullish r = false ->
  is_nullish (field r "data") = false ->
  truthy (field (field r "data") "session") = true ->
  trim q <> [] ->
  trim v <> [] ->
  options <> JNull ->
  (forall req, is_fetch req = true -> w (S n) req s1 = (Resolved response, s2)) ->
  is_nullish response = false ->
  truthy (field response "ok") = true ->
  w (S (S n)) (ResponseJson response) s2 = (Resolved data, s3) ->
  is_nullish data = false ->
  field data "success" = JBool true ->
  let o := exec w (callRagBrain supabaseUrl supabaseAnonKey ToString JSON_stringify
                   (JStr q) (JStr v) options) s n in
  (forall items, field data "sources" = JArr items ->
   result o = Resolved (rag_result (field data "answer") (JArr items)
                                   (field data "processing_time_ms"))) /\
  (is_nullish (field data "sources") = true ->
   result o = Resolved (rag_result (field data "answer") (JArr [])
                                   (field data "processing_time_ms"))) /\
  final o = s3 /\
  map is_fetch (requests o) = [false; true; false].
Proof.
  intros Hw Hr Hd Hs Hq Hv Ho Hf Hresp Hok Hj Hdata Hsucc o.
  subst o.
  unfold callRagBrain, requests, try_catch. cbn. rewrite Hw. cbn.
  unfold prop. rewrite Hr. cbn. rewrite Hd. cbn. rewrite Hs. cbn.
  rewrite (blank_of_trim_cons q Hq). cbn.
  rewrite (blank_of_trim_cons v Hv). cbn.
  fold (defaulted options). rewrite (defaulted_not_nullish options Ho). cbn.
  rewrite Hf by reflexivity. cbn. rewrite Hresp. cbn.
  rewrite Hj. cbn. rewrite Hok. cbn. rewrite Hdata. cbn. rewrite Hsucc. cbn.
  repeat split.
  - intros items ->. reflexivity.
  - intros Hnone. unfold or_else.
    destruct (field data "sources"); try discriminate; reflexivity.
Qed.

End Dispatch.

(** No session; an empty query; a vertical id of two spaces. *)
Lemma dispatch_validation_witness :
  let dispatch := callRagBrain sampleUrl sampleKey sampleToString sampleStringify in
  result (exec (scripted [Resolved (sessionReply JNull)])
               (dispatch (str "What is X?") (str "audit") JUndefined) mountedStore 0) =
    Resolved (rag_error msg_unauthenticated) /\
  (let o := exec (scripted [Resolved (sessionReply session1)])
                 (dispatch (JStr []) (str "audit") JUndefined) mountedStore 0 in
   result o = Resolved (rag_error msg_empty_query) /\
   requests o = [AuthGetSession]) /\
  result (exec (scripted [Resolved (sessionReply session1)])
               (dispatch (str "What is X?") (str "  ") JUndefined) mountedStore 0) =
    Resolved (rag_error msg_vertical_required).
Proof.
  cbv zeta. split; [|split].
  - exact (proj1 (proj1 (dispatch_validation sampleUrl sampleKey sampleToString
                    sampleStringify (scripted [Resolved (sessionReply JNull)])
                    (str "What is X?") (str "audit") JUndefined (sessionReply JNull)
                    mountedStore mountedStore 0 eq_refl eq_refl eq_refl) eq_refl)).
  - exact (proj1 (proj2 (dispatch_validation sampleUrl sampleKey sampleToString
                    sampleStringify (scripted [Resolved (sessionReply session1)])
                    (JStr []) (str "audit") JUndefined (sessionReply session1)
                    mountedStore mountedStore 0 eq_refl eq_refl eq_refl))
                  eq_refl [] eq_refl eq_refl).
  - refine (proj1 (proj2 (proj2 (dispatch_validation sampleUrl sampleKey sampleToString
                    sampleStringify (scripted [Resolved (sessionReply session1)])
                    (str "What is X?") (str "  ") JUndefined (sessionReply session1)
                    mountedStore mountedStore 0 eq_refl eq_refl eq_refl))
                  eq_refl (lit "What is X?") (lit "  ") eq_refl _ eq_refl eq_refl)).
    discriminate.
Defined.


(** The service answering [{ success: true, answer: 'Y', sources: [],
    processing_time_ms: 42 }]. *)
Lemma dispatch_success_witness :
  result (exec (scripted [Resolved (sessionReply session1); Resolved okResponse;
                          Resolved answerY])
               (callRagBrain sampleUrl sampleKey sampleToString sampleStringify
                  (str "What is X?") (str "audit") JUndefined)
               mountedStore 0) =
  Resolved (rag_result (str "Y") (JArr []) (JInt 42)).
Proof.
  refine (proj1 (dispatch_success sampleUrl sampleKey sampleToString sampleStringify
                   (scripted [Resolved (sessionReply session1); Resolved okResponse;
                              Resolved answerY])
                   JUndefined (sessionReply session1) okResponse answerY
                   (lit "What is X?") (lit "audit")
                   mountedStore mountedStore mountedStore mountedStore 0
                   eq_refl eq_refl eq_refl eq_refl _ _ _ (fun _ _ => eq_refl)
                   eq_refl eq_refl eq_refl eq_refl eq_refl) [] eq_refl);
    discriminate.
Defined.

End QueryDispatcher.


(* ================================================================== *)
(** * Further proof steps *)
(* ================================================================== *)

(** What a program that cannot take a step is stuck on, however deep in a
    sequence it is. *)
Ltac stuck_on p :=
  lazymatch p with
  | bind ?q _ => stuck_on q
  | match ?x with _ => _ end => x
  end.

Ltac exec_split :=
  match goal with
  | |- context [exec _ ?p _ _] => let x := stuck_on p in destruct x eqn:?
  end.

Ltac exec_splits := repeat (cbn; unfold seq, prop; cbn; exec_split); cbn.

Ltac run_case :=
  match goal with
  | |- context [run ?p _] => let x := stuck_on p in destruct x eqn:?
  end.

Ltac run_cases := repeat (cbn; unfold seq, prop; cbn; run_case); cbn.


(* ================================================================== *)
(** * More on the profile loader *)
(* ================================================================== *)

Module ProfileLoaderMore.

Import AuthContext Outcomes.

Lemma truthy_not_nullish (v : jsval) : truthy v = true -> is_nullish v = false.
Proof.
  destruct v; simpl; intros H; (discriminate || reflexivity).
Qed.

(** X1. A fetch of the profile that the store answers with an error other
    than not-found: the error's message goes to the [error] cell, profile
    and organization stay what they were when the answer arrived, no second
    request is made, and the promise of the load still resolves. *)
Theorem load_failure_recorded (w : World) (userId r : jsval) (s s' : Store) (n : nat) :
  loadingProfileRef s = false ->
  w n (FromSelectSingle (lit "profiles") userId) (set_loadingProfileRef true s)
    = (Resolved r, s') ->
  is_nullish r = false ->
  truthy (field r "error") = true ->
  strict_eq (field (field r "error") "code") (str "PGRST116") = false ->
  let o := exec w (loadUserProfile userId) s n in
  result o = Resolved JUndefined /\
  error (final o) = field (field r "error") "message" /\
  profile (final o) = profile s' /\
  organization (final o) = organization s' /\
  requests o = [FromSelectSingle (lit "profiles") userId] /\
  profileLoadedRef (final o) = true /\
  loadingProfileRef (final o) = false.
Proof.
  intros Hg Hw Hr He Hc o. subst o.
  unfold loadUserProfile, requests. cbn. rewrite Hg. cbn.
  unfold try_catch_finally. cbn. rewrite Hw. cbn.
  unfold prop. rewrite Hr. cbn. rewrite He. cbn. rewrite Hc. cbn.
  rewrite (truthy_not_nullish _ He). cbn.
  repeat split.
Qed.

(** A store error that is not the not-found one, on a state that held a
    profile and an organization. *)
Lemma load_failure_recorded_witness :
  let o := exec (scripted [Resolved (failed permission_denied)])
                (loadUserProfile (str "u1"))
                (setOrganization orgA (setProfile profileA mountedStore)) 0 in
  result o = Resolved JUndefined /\
  error (final o) = str "permission denied" /\
  profile (final o) = profileA /\
  organization (final o) = orgA.
Proof.
  pose proof (load_failure_recorded (scripted [Resolved (failed permission_denied)])
                (str "u1") (failed permission_denied)
                (setOrganization orgA (setProfile profileA mountedStore))
                (set_loadingProfileRef true
                   (setOrganization orgA (setProfile profileA mountedStore)))
                0 eq_refl eq_refl eq_refl eq_refl eq_refl) as H.
  cbv zeta in H. cbv zeta.
  destruct H as (H1 & H2 & H3 & H4 & _).
  repeat split; assumption.
Defined.

(** X2. A profile that refers to an organization: the organization is
    fetched by the profile's [org_id]; when that fetch succeeds both are set,
    and when it returns an error the profile is set all the same, the
    organization and the [error] cell are left as they were, and the load
    resolves. *)
Theorem load_with_organization (w : World) (userId r r' : jsval)
    (s s1 s2 : Store) (n : nat) :
  loadingProfileRef s = false ->
  w n (FromSelectSingle (lit "profiles") userId) (set_loadingProfileRef true s)
    = (Resolved r, s1) ->
  is_nullish r = false ->
  truthy (field r "error") = false ->
  truthy (opt_prop (field r "data") "org_id") = true ->
  w (S n) (FromSelectSingle (lit "organizations") (field (field r "data") "org_id"))
      (setProfile (field r "data") s1) = (Resolved r', s2) ->
  is_nullish r' = false ->
  let o := exec w (loadUserProfile userId) s n in
  result o = Resolved JUndefined /\
  requests o = [FromSelectSingle (lit "profiles") userId;
                FromSelectSingle (lit "organizations") (field (field r "data") "org_id")] /\
  error (final o) = error s2 /\
  profile (final o) = profile s2 /\
  organization (final o) =
    (if truthy (field r' "error") then organization s2 else field r' "data") /\
  loadingProfileRef (final o) = false.
Proof.
  intros Hg Hw Hr He Ho Hw' Hr' o. subst o.
  unfold loadUserProfile, requests. cbn. rewrite Hg. cbn.
  unfold try_catch_finally. cbn. rewrite Hw. cbn.
  unfold prop. rewrite Hr. cbn. rewrite He. cbn. rewrite Ho. cbn.
  rewrite Hw'. cbn. rewrite Hr'. cbn.
  destruct (truthy (field r' "error")); cbn; repeat split.
Qed.

Lemma load_with_organization_witness :
  let o := exec (scripted [Resolved (found profileA); Resolved (found orgA)])
                (loadUserProfile (str "u1")) mountedStore 0 in
  profile (final o) = profileA /\ organization (final o) = orgA.
Proof.
  pose proof (load_with_organization
                (scripted [Resolved (found profileA); Resolved (found orgA)])
                (str "u1") (found profileA) (found orgA)
                mountedStore
                (set_loadingProfileRef true mountedStore)
                (setProfile profileA (set_loadingProfileRef true mountedStore))
                0 eq_refl eq_refl eq_refl eq_refl eq_refl eq_refl eq_refl) as H.
  cbv zeta in H. cbv zeta.
  destruct H as (_ & _ & _ & H1 & H2 & _).
  split; [exact H1 | exact H2].
Defined.

End ProfileLoaderMore.


(* ================================================================== *)
(** * Totality of the profile loader *)
(* ================================================================== *)

Module LoaderTotal.

Import AuthContext Outcomes Further ProfileLoaderMore.

(** X3. Unless a promise rejects with [null] or [undefined], the promise
    of [loadUserProfile] always resolves, never rejects, whatever the store
    answers; and a load makes at most two requests. *)
Theorem load_always_resolves (w : World) (userId : jsval) (s : Store) (n : nat) :
  rejects_with_values w ->
  let o := exec w (loadUserProfile userId) s n in
  result o = Resolved JUndefined /\
  List.length (requests o) <= 2.
Proof.
  intros Hw o. subst o.
  unfold loadUserProfile, requests. cbn.
  destruct (loadingProfileRef s) eqn:Hg; cbn; [split; [reflexivity | lia]|].
  unfold try_catch_finally, try_finally, try_catch, prop. cbn.
  destruct (fst (w n _ _)) as [r|e] eqn:E1; cbn.
  - destruct (is_nullish r) eqn:Hr; cbn; [split; [reflexivity | lia]|].
    destruct (truthy (field r "error")) eqn:He; cbn.
    + destruct (strict_eq _ _); cbn; [split; [reflexivity | lia]|].
      rewrite (truthy_not_nullish _ He). cbn. split; [reflexivity | lia].
    + destruct (truthy (opt_prop (field r "data") "org_id")); cbn; [|split; [reflexivity | lia]].
      destruct (fst (w (S n) _ _)) as [r'|e'] eqn:E2; cbn.
      * destruct (is_nullish r') eqn:Hr'; cbn; [split; [reflexivity | lia]|].
        destruct (truthy (field r' "error")); cbn; split; (reflexivity || lia).
      * rewrite (Hw _ _ _ _ E2). cbn. split; [reflexivity | lia].
  - rewrite (Hw _ _ _ _ E1). cbn. split; [reflexivity | lia].
Qed.

Lemma load_always_resolves_witness :
  result (exec (scripted [Rejected offline]) (loadUserProfile (str "u1")) mountedStore 0) =
  Resolved JUndefined.
Proof.
  refine (proj1 (load_always_resolves (scripted [Rejected offline]) (str "u1")
                   mountedStore 0 _)).
  intros k r st e. destruct k as [|[|k]]; cbn; intros [= <-]; reflexivity.
Defined.

End LoaderTotal.


(* ================================================================== *)
(** * More on the session events *)
(* ================================================================== *)

Module SessionEvents.

Import AuthContext Outcomes Further.

(** X4. However [initSession] ends, in whatever world, a component that is
    still mounted at that moment has [loading] false. *)
Theorem initSession_lowers_loading (w : World) (s : Store) (n : nat) :
  let o := exec w initSession s n in
  mounted (final o) = true -> loading (final o) = false.
Proof.
  intros o. subst o. unfold initSession. rewrite exec_async_final.
  unfold try_catch_finally.
  rewrite (exec_try_finally_final w _ _
             (fun s0 => if mounted s0 then setLoading false s0 else s0)).
  - set (X := final _). destruct (mounted X) eqn:E; intros H.
    + reflexivity.
    + congruence.
  - intros s0 n0. cbn. destruct (mounted s0); reflexivity.
Qed.

Lemma initSession_lowers_loading_witness :
  loading (final (exec (scripted [Rejected (newError (lit "offline"))])
                       initSession mountedStore 0)) = false.
Proof.
  apply (initSession_lowers_loading (scripted [Rejected (newError (lit "offline"))])
           mountedStore 0).
  reflexivity.
Defined.

(** X5. When the component has been unmounted by the time [getSession]
    answers, the answer is dropped: the store is left as the world left it,
    no profile is fetched and the promise resolves. *)
Theorem initSession_discards_after_unmount (w : World) (r : jsval) (s s' : Store) (n : nat) :
  w n AuthGetSession s = (Resolved r, s') ->
  is_nullish r = false ->
  is_nullish (field r "data") = false ->
  mounted s' = false ->
  let o := exec w initSession s n in
  final o = s' /\ result o = Resolved JUndefined /\ requests o = [AuthGetSession].
Proof.
  intros Hw Hr Hd Hm o. subst o.
  unfold initSession, requests, try_catch_finally, try_finally, try_catch. cbn.
  rewrite Hw. cbn. unfold prop. rewrite Hr. cbn. rewrite Hd. cbn.
  rewrite Hm. cbn. rewrite Hm. cbn. repeat split.
Qed.

Lemma initSession_discards_after_unmount_witness :
  final (exec (unmounting [Resolved (sessionReply session1)]) initSession mountedStore 0) =
  set_mounted false mountedStore.
Proof.
  refine (proj1 (initSession_discards_after_unmount
                   (unmounting [Resolved (sessionReply session1)])
                   (sessionReply session1) mountedStore (set_mounted false mountedStore) 0
                   eq_refl eq_refl eq_refl eq_refl)).
Defined.

(** X6. Without a session, [initSession] publishes session and user [null],
    lowers [loading], fetches nothing and leaves profile, organization and
    [error] alone. *)
Theorem initSession_without_session (w : World) (r : jsval) (s s' : Store) (n : nat) :
  w n AuthGetSession s = (Resolved r, s') ->
  is_nullish r = false ->
  is_nullish (field r "data") = false ->
  is_nullish (field (field r "data") "session") = true ->
  mounted s' = true ->
  let o := exec w initSession s n in
  final o = setLoading false (setUser JNull (setSession (field (field r "data") "session") s')) /\
  result o = Resolved JUndefined /\
  requests o = [AuthGetSession].
Proof.
  intros Hw Hr Hd Hs Hm o. subst o.
  unfold initSession, requests, try_catch_finally, try_finally, try_catch. cbn.
  rewrite Hw. cbn. unfold prop. rewrite Hr. cbn. rewrite Hd. cbn.
  rewrite Hm. cbn. unfold opt_prop. rewrite Hs. cbn. rewrite Hm. cbn.
  repeat split.
Qed.

Lemma initSession_without_session_witness :
  let o := exec (scripted [Resolved (sessionReply JNull)]) initSession mountedStore 0 in
  loading (final o) = false /\ requests o = [AuthGetSession].
Proof.
  pose proof (initSession_without_session (scripted [Resolved (sessionReply JNull)])
                (sessionReply JNull) mountedStore mountedStore 0
                eq_refl eq_refl eq_refl eq_refl eq_refl) as H.
  cbv zeta in H. cbv zeta. destruct H as (H1 & _ & H3).
  split; [rewrite H1; reflexivity | exact H3].
Defined.

(** X7. Any other event (a token refresh, say) replaces session and user
    and lowers [loading]; it touches neither profile nor organization nor
    the flags, schedules nothing and awaits nothing. *)
Theorem other_events_keep_profile (event newSession : jsval) (s : Store) :
  mounted s = true ->
  plain_event event newSession = true ->
  run (onAuthStateChange event newSession) s =
  (setLoading false
     (setUser (nullish (opt_prop newSession "user") JNull) (setSession newSession s)),
   Done (Resolved JUndefined)).
Proof.
  intros Hm Hp. unfold plain_event in Hp.
  apply andb_true_iff in Hp as [H1 H2].
  apply negb_true_iff in H1. apply negb_true_iff in H2.
  unfold onAuthStateChange. cbn. rewrite Hm. cbn. rewrite H1. rewrite H2. reflexivity.
Qed.

Lemma other_events_keep_profile_witness :
  profile (fst (run (onAuthStateChange (str "TOKEN_REFRESHED") session2)
                    (setProfile profileA mountedStore))) = profileA.
Proof.
  rewrite (other_events_keep_profile (str "TOKEN_REFRESHED") session2
             (setProfile profileA mountedStore) eq_refl eq_refl).
  reflexivity.
Defined.

End SessionEvents.


(* ================================================================== *)
(** * Sign-ins, timers and refreshes *)
(* ================================================================== *)

Module SessionRaces.

Import AuthContext Outcomes Further.

(** X8. [refreshProfile] clears the guard before it loads, so it fetches
    even while another load is in flight: two calls in a row make two
    fetches of the same profile.  Without a user id it does nothing. *)
Theorem refreshProfile_bypasses_guard (s : Store) :
  (truthy (opt_prop (user s) "id") = false ->
   run refreshProfile s = (s, Done (Resolved JUndefined))) /\
  (truthy (opt_prop (user s) "id") = true ->
   let m := Loop.play (Loop.boot s) [Loop.Call refreshProfile; Loop.Call refreshProfile] in
   Loop.network m =
     [FromSelectSingle (lit "profiles") (field (user s) "id");
      FromSelectSingle (lit "profiles") (field (user s) "id")] /\
   List.length (Loop.tasks m) = 2 /\
   Loop.finished m = []).
Proof.
  split; intros Hu.
  - unfold refreshProfile. cbn. rewrite Hu. reflexivity.
  - cbv zeta. unfold Loop.play, Loop.boot. cbn [fold_left].
    unfold Loop.step, Loop.advance. cbn [Loop.store].
    unfold refreshProfile, loadUserProfile, try_catch_finally. cbn.
    rewrite Hu. cbn. rewrite Hu. cbn. repeat split.
Qed.

Lemma refreshProfile_bypasses_guard_witness :
  run refreshProfile mountedStore = (mountedStore, Done (Resolved JUndefined)) /\
  Loop.network (Loop.play (Loop.boot (set_loadingProfileRef true (setUser user1 mountedStore)))
                  [Loop.Call refreshProfile; Loop.Call refreshProfile]) =
    [FromSelectSingle (lit "profiles") (str "u1");
     FromSelectSingle (lit "profiles") (str "u1")].
Proof.
  split.
  - apply (proj1 (refreshProfile_bypasses_guard mountedStore)). reflexivity.
  - apply (proj2 (refreshProfile_bypasses_guard
                    (set_loadingProfileRef true (setUser user1 mountedStore)))).
    reflexivity.
Defined.

(** What the handler leaves for a sign-in with a user. *)
Lemma signed_in_run (newSession : jsval) (s : Store) :
  mounted s = true ->
  truthy (opt_prop newSession "user") = true ->
  run (onAuthStateChange (str "SIGNED_IN") newSession) s =
  (set_timers (timers s ++ [(newSession, 1000%Z)])
     (set_loadingProfileRef false
        (set_profileLoadedRef false
           (setUser (nullish (opt_prop newSession "user") JNull)
              (setSession newSession s)))),
   Done (Resolved JUndefined)).
Proof.
  intros Hm Hu. unfold onAuthStateChange. cbn. rewrite Hm. cbn. rewrite Hu. reflexivity.
Qed.

Lemma user_of_session (newSession : jsval) :
  truthy (opt_prop newSession "user") = true ->
  is_nullish newSession = false /\
  is_nullish (field newSession "user") = false /\
  nullish (opt_prop newSession "user") JNull = field newSession "user".
Proof.
  unfold opt_prop. destruct (is_nullish newSession) eqn:E; [discriminate|].
  intros H. repeat split.
  - destruct (field newSession "user"); try reflexivity; discriminate.
  - destruct (field newSession "user"); try reflexivity; discriminate.
Qed.

(** The timer callback with the guard clear starts the load. *)
Lemma timer_run_clear (newSession : jsval) (s : Store) :
  mounted s = true ->
  loadingProfileRef s = false ->
  truthy (opt_prop newSession "user") = true ->
  exists k,
    run (signedInTimeout newSession) s =
    (set_loadingProfileRef true s,
     Blocked (FromSelectSingle (lit "profiles") (field (field newSession "user") "id")) k) /\
    forall r s2,
      is_nullish r = false ->
      truthy (field r "error") = false ->
      profile (fst (run (k (Resolved r)) s2)) = field r "data" /\
      user (fst (run (k (Resolved r)) s2)) = user s2.
Proof.
  intros Hm Hg Hu. destruct (user_of_session newSession Hu) as (N1 & N2 & _).
  unfold signedInTimeout, loadUserProfile, try_catch_finally, prop. cbn.
  rewrite Hm. cbn. rewrite N1. cbn. rewrite N2. cbn. rewrite Hg. cbn.
  eexists. split; [reflexivity|].
  intros r s2 Hr He. cbn. rewrite Hr. cbn. rewrite He. cbn.
  destruct (truthy (opt_prop (field r "data") "org_id")); cbn; split; reflexivity.
Qed.

(** The timer callback with the guard set only waits for the skipped load. *)
Lemma timer_run_guarded (newSession : jsval) (s : Store) :
  mounted s = true ->
  loadingProfileRef s = true ->
  truthy (opt_prop newSession "user") = true ->
  exists k, run (signedInTimeout newSession) s = (s, Blocked Tick k).
Proof.
  intros Hm Hg Hu. destruct (user_of_session newSession Hu) as (N1 & N2 & _).
  unfold signedInTimeout, loadUserProfile, try_catch_finally, prop. cbn.
  rewrite Hm. cbn. rewrite N1. cbn. rewrite N2. cbn. rewrite Hg. cbn.
  eexists. reflexivity.
Qed.

(** X9. A sign-in with a user fetches nothing by itself: it stores session
    and user, clears both load flags, leaves [loading], profile and
    organization alone and schedules one callback, a second later; when
    that callback runs, the profile of the session's user is fetched. *)
Theorem signed_in_schedules_load (newSession : jsval) (s : Store) :
  mounted s = true ->
  timers s = [] ->
  truthy (opt_prop newSession "user") = true ->
  let m1 := Loop.step (Loop.boot s)
              (Loop.Call (onAuthStateChange (str "SIGNED_IN") newSession)) in
  let m2 := Loop.step m1 (Loop.FireTimer 0) in
  (Loop.network m1 = [] /\ Loop.tasks m1 = [] /\
   timers (Loop.store m1) = [(newSession, 1000%Z)] /\
   session (Loop.store m1) = newSession /\
   user (Loop.store m1) = field newSession "user" /\
   loading (Loop.store m1) = loading s /\
   profile (Loop.store m1) = profile s /\
   organization (Loop.store m1) = organization s) /\
  (Loop.network m2 =
     [FromSelectSingle (lit "profiles") (field (field newSession "user") "id")] /\
   timers (Loop.store m2) = [] /\
   loadingProfileRef (Loop.store m2) = true).
Proof.
  intros Hm Ht Hu m1 m2.
  destruct (user_of_session newSession Hu) as (N1 & N2 & N3).
  assert (E1 : m1 = Loop.mkMachine
                 (set_timers [(newSession, 1000%Z)]
                    (set_loadingProfileRef false
                       (set_profileLoadedRef false
                          (setUser (field newSession "user") (setSession newSession s)))))
                 [] [] [Resolved JUndefined]).
  { subst m1. unfold Loop.step, Loop.advance, Loop.boot. cbn [Loop.store].
    rewrite (signed_in_run newSession s Hm Hu). rewrite Ht, N3. reflexivity. }
  split.
  - rewrite E1. repeat split.
  - subst m2. rewrite E1. unfold Loop.step.
    cbn [Loop.store timers set_timers nth_error Loop.tasks Loop.network Loop.finished
         Loop.remove_nth].
    set (s1 := set_timers [] _).
    destruct (timer_run_clear newSession s1 Hm eq_refl Hu) as (k & Hk & _).
    unfold Loop.advance. cbn [Loop.store]. rewrite Hk. repeat split.
Qed.

Lemma signed_in_schedules_load_witness :
  Loop.network
    (Loop.step
       (Loop.step (Loop.boot mountedStore)
          (Loop.Call (onAuthStateChange (str "SIGNED_IN") session1)))
       (Loop.FireTimer 0)) =
  [FromSelectSingle (lit "profiles") (str "u1")].
Proof.
  pose proof (signed_in_schedules_load session1 mountedStore eq_refl eq_refl eq_refl) as H.
  cbv zeta in H. destruct H as (_ & H & _). exact H.
Defined.

(** X10. Two sign-ins in a row, the second timer firing while the load of
    the first is still in flight: the second load finds the guard set and
    fetches nothing.  The only profile fetched is the first user's, and it
    is applied while the published user is the second. *)
Theorem second_sign_in_load_skipped (session1 session2 r : jsval) (s : Store) :
  mounted s = true ->
  timers s = [] ->
  truthy (opt_prop session1 "user") = true ->
  truthy (opt_prop session2 "user") = true ->
  is_nullish r = false ->
  truthy (field r "error") = false ->
  let m := Loop.play (Loop.boot s)
             [Loop.Call (onAuthStateChange (str "SIGNED_IN") session1);
              Loop.Call (onAuthStateChange (str "SIGNED_IN") session2);
              Loop.FireTimer 0;
              Loop.FireTimer 0] in
  let m' := Loop.step m (Loop.Settle 0 (Resolved r)) in
  Loop.network m = [FromSelectSingle (lit "profiles") (field (field session1 "user") "id")] /\
  map Loop.waiting (Loop.tasks m) =
    [FromSelectSingle (lit "profiles") (field (field session1 "user") "id"); Tick] /\
  user (Loop.store m) = field session2 "user" /\
  user (Loop.store m') = field session2 "user" /\
  profile (Loop.store m') = field r "data".
Proof.
  intros Hm Ht Hu1 Hu2 Hr He m m'.
  destruct (user_of_session session1 Hu1) as (_ & _ & U1).
  destruct (user_of_session session2 Hu2) as (_ & _ & U2).
  set (sa := set_timers [(session1, 1000%Z)]
               (set_loadingProfileRef false
                  (set_profileLoadedRef false
                     (setUser (field session1 "user") (setSession session1 s))))).
  set (sb := set_timers [(session1, 1000%Z); (session2, 1000%Z)]
               (set_loadingProfileRef false
                  (set_profileLoadedRef false
                     (setUser (field session2 "user") (setSession session2 sa))))).
  set (sc := set_timers [(session2, 1000%Z)] sb).
  set (sd := set_timers [] (set_loadingProfileRef true sc)).
  destruct (timer_run_clear session1 sc Hm eq_refl Hu1) as (k1 & Hk1 & Hlate).
  destruct (timer_run_guarded session2 sd Hm eq_refl Hu2) as (k2 & Hk2).
  assert (E : m = Loop.mkMachine sd
                [Loop.mkTask (FromSelectSingle (lit "profiles")
                                (field (field session1 "user") "id")) k1;
                 Loop.mkTask Tick k2]
                [FromSelectSingle (lit "profiles") (field (field session1 "user") "id")]
                [Resolved JUndefined; Resolved JUndefined]).
  { subst m. unfold Loop.play, Loop.boot. cbn [fold_left].
    unfold Loop.step at 4. unfold Loop.advance. cbn [Loop.store].
    rewrite (signed_in_run session1 s Hm Hu1). rewrite Ht, U1. cbn [app].
    fold sa.
    unfold Loop.step at 3. unfold Loop.advance.
    cbn [Loop.store Loop.tasks Loop.network Loop.finished].
    rewrite (signed_in_run session2 sa Hm Hu2). rewrite U2.
    change (timers sa ++ [(session2, 1000%Z)])
      with [(session1, 1000%Z); (session2, 1000%Z)].
    fold sb.
    unfold Loop.step at 2.
    cbn [Loop.store Loop.tasks Loop.network Loop.finished].
    change (nth_error (timers sb) 0) with (Some (session1, 1000%Z)).
    cbv iota beta.
    change (Loop.remove_nth 0 (timers sb)) with [(session2, 1000%Z)].
    fold sc. unfold Loop.advance.
    cbn [Loop.store Loop.tasks Loop.network Loop.finished].
    rewrite Hk1. cbn [is_network app].
    unfold Loop.step.
    cbn [Loop.store Loop.tasks Loop.network Loop.finished].
    change (nth_error (timers (set_loadingProfileRef true sc)) 0)
      with (Some (session2, 1000%Z)).
    cbv iota beta.
    change (Loop.remove_nth 0 (timers (set_loadingProfileRef true sc)))
      with (@nil (jsval * Z)).
    fold sd. unfold Loop.advance.
    cbn [Loop.store Loop.tasks Loop.network Loop.finished].
    rewrite Hk2. reflexivity. }
  split; [rewrite E; reflexivity|].
  split; [rewrite E; reflexivity|].
  split; [rewrite E; reflexivity|].
  subst m'. rewrite E. unfold Loop.step.
  cbn [Loop.tasks nth_error Loop.resume Loop.store Loop.network Loop.finished Loop.remove_nth].
  unfold Loop.advance. cbn [Loop.store].
  destruct (Hlate r sd Hr He) as [Hp Hu].
  destruct (run (k1 (Resolved r)) sd) as [s3 [x|req k']]; cbn [fst] in *;
    cbn [Loop.store]; split; assumption.
Qed.

Lemma second_sign_in_load_skipped_witness :
  let m := Loop.play (Loop.boot mountedStore)
             [Loop.Call (onAuthStateChange (str "SIGNED_IN") session1);
              Loop.Call (onAuthStateChange (str "SIGNED_IN") session2);
              Loop.FireTimer 0;
              Loop.FireTimer 0] in
  let m' := Loop.step m (Loop.Settle 0 (Resolved (found profileA))) in
  field (user (Loop.store m')) "id" = str "u2" /\
  profile (Loop.store m') = profileA.
Proof.
  pose proof (second_sign_in_load_skipped session1 session2 (found profileA) mountedStore
                eq_refl eq_refl eq_refl eq_refl eq_refl eq_refl) as H.
  cbv zeta in H. cbv zeta. destruct H as (_ & _ & _ & H1 & H2).
  split; [rewrite H1; reflexivity | exact H2].
Defined.

End SessionRaces.


(* ================================================================== *)
(** * After the cleanup of the effect *)
(* ================================================================== *)

Module Teardown.

Import AuthContext Outcomes Further.

Lemma handler_unmounted (event newSession : jsval) (s : Store) :
  mounted s = false ->
  run (onAuthStateChange event newSession) s = (s, Done (Resolved JUndefined)).
Proof.
  intros Hm. unfold onAuthStateChange. cbn. now rewrite Hm.
Qed.

Lemma timer_unmounted (newSession : jsval) (s : Store) :
  mounted s = false ->
  run (signedInTimeout newSession) s = (s, Done (Resolved JUndefined)).
Proof.
  intros Hm. unfold signedInTimeout. cbn. now rewrite Hm.
Qed.

Lemma late_step (m : Loop.Machine) (e : Loop.Event) :
  mounted (Loop.store m) = false ->
  late_event e ->
  same_state (Loop.store m) (Loop.store (Loop.step m e)) /\
  Loop.tasks (Loop.step m e) = Loop.tasks m /\
  Loop.network (Loop.step m e) = Loop.network m.
Proof.
  intros Hm He. destruct e as [p | i x | i]; unfold late_event in He.
  - destruct He as (event & newSession & ->).
    unfold Loop.step, Loop.advance.
    rewrite (handler_unmounted event newSession _ Hm).
    cbn. repeat split.
  - contradiction.
  - unfold Loop.step. destruct (nth_error (timers (Loop.store m)) i) as [[newSession d]|].
    + unfold Loop.advance. cbn [Loop.store].
      rewrite (timer_unmounted newSession (set_timers _ (Loop.store m)) Hm).
      cbn. repeat split.
    + repeat split.
Qed.

(** X11. Once the effect is cleaned up, nothing the provider or the clock
    still delivers has any effect: whatever sequence of handler calls and
    timer firings follows, the published state and the flags stay as they
    were, no call is suspended and no request is made. *)
Theorem unmounted_is_inert (m : Loop.Machine) (events : list Loop.Event) :
  mounted (Loop.store m) = false ->
  Forall late_event events ->
  same_state (Loop.store m) (Loop.store (Loop.play m events)) /\
  Loop.tasks (Loop.play m events) = Loop.tasks m /\
  Loop.network (Loop.play m events) = Loop.network m.
Proof.
  intros Hm Hall. revert m Hm.
  induction Hall as [|e events He Hall IH]; intros m Hm.
  - cbn. repeat split.
  - cbn [Loop.play fold_left].
    destruct (late_step m e Hm He) as (Hs & Ht & Hn).
    assert (Hm' : mounted (Loop.store (Loop.step m e)) = false).
    { destruct Hs as (_ & _ & _ & _ & _ & _ & _ & _ & _ & Hmm). now rewrite Hmm. }
    destruct (IH (Loop.step m e) Hm') as (Hs' & Ht' & Hn').
    unfold Loop.play in *. split; [|split].
    + unfold same_state in *. intuition congruence.
    + now rewrite Ht'.
    + now rewrite Hn'.
Qed.

(** A sign-in, the cleanup before its timer fires, then the timer and a
    sign-out event. *)
Lemma unmounted_is_inert_witness :
  Loop.network
    (Loop.play
       (Loop.play (Loop.boot mountedStore)
          [Loop.Call (onAuthStateChange (str "SIGNED_IN") session1); Loop.Call unmount])
       [Loop.FireTimer 0; Loop.Call (onAuthStateChange (str "SIGNED_OUT") JNull)]) = [].
Proof.
  refine (proj2 (proj2 (unmounted_is_inert
            (Loop.play (Loop.boot mountedStore)
               [Loop.Call (onAuthStateChange (str "SIGNED_IN") session1); Loop.Call unmount])
            [Loop.FireTimer 0; Loop.Call (onAuthStateChange (str "SIGNED_OUT") JNull)]
            eq_refl _))).
  repeat constructor. exists (str "SIGNED_OUT"), JNull. reflexivity.
Defined.

End Teardown.


(* ================================================================== *)
(** * The signup flag as mutual exclusion *)
(* ================================================================== *)

Module SignupExclusion.

Import AuthContext Outcomes Further.

Lemma signUp_start (helper : option (jsval -> Prog Settled))
    (email password metadata : jsval) (s : Store) :
  helper = None \/ helper = Some SupabaseClient.checkEmailExists ->
  signingUpRef s = false ->
  exists r k,
    run (signUp helper email password metadata) s =
    (setLoading true (set_signingUpRef true s), Blocked r k) /\
    releasing 2 k.
Proof.
  intros [-> | ->] H; unfold signUp; cbn; rewrite H; cbn;
    unfold try_catch_finally, try_finally, try_catch; cbn.
  - do 2 eexists. split; [reflexivity|].
    intros x s0 Hs0. unfold call_toLowerCase. destruct x; run_cases; reflexivity.
  - unfold SupabaseClient.checkEmailExists, await_call, async, try_catch. cbn.
    destruct (truthy email); cbn.
    + do 2 eexists. split; [reflexivity|].
      intros x s0 Hs0. destruct x; run_cases.
      all: split; [assumption|].
      all: intros x1 s1 Hs1; run_cases.
      all: try reflexivity.
      all: split; [assumption|].
      all: intros x2 s2 Hs2; unfold call_toLowerCase; destruct x2; run_cases; reflexivity.
    + do 2 eexists. split; [reflexivity|].
      intros x s0 Hs0. run_cases.
      split; [assumption|].
      intros x2 s2 Hs2; unfold call_toLowerCase; destruct x2; run_cases; reflexivity.
Qed.

Lemma releasing_mono (d : nat) :
  forall k, releasing d k -> releasing (S d) k.
Proof.
  induction d as [|d IH]; intros k Hk x s Hs; specialize (Hk x s Hs);
    destruct (run (k x) s) as [s' [v | r k']]; try exact Hk.
  - destruct Hk as [_ []].
  - destruct Hk as [Hs' Hk']. split; [exact Hs'|]. now apply IH.
Qed.

Lemma exclusive_step (helper : option (jsval -> Prog Settled))
    (m : Loop.Machine) (e : Loop.Event) :
  helper = None \/ helper = Some SupabaseClient.checkEmailExists ->
  exclusive m ->
  signup_event helper e ->
  exclusive (Loop.step m e).
Proof.
  intros Hh Hinv He. destruct e as [p | i x | i]; unfold signup_event in He.
  - destruct He as (email & password & metadata & ->).
    unfold Loop.step, Loop.advance.
    destruct Hinv as [[Hf Ht] | [Hf Ht]].
    + destruct (signUp_start helper email password metadata _ Hh Hf) as (r & k & Hrun & Hk).
      rewrite Hrun. right. cbn. split; [reflexivity|].
      rewrite Ht. eexists. split; [reflexivity | exact Hk].
    + rewrite (SignupGuard.signUp_guarded helper email password metadata _ Hf).
      right. cbn. split; assumption.
  - unfold Loop.step.
    destruct Hinv as [[Hf Ht] | [Hf (t & Ht & Hk)]].
    + rewrite Ht. destruct i; cbn; left; split; assumption.
    + rewrite Ht. destruct i as [|i]; cbn [nth_error].
      * unfold Loop.advance. cbn [Loop.store Loop.tasks Loop.remove_nth].
        specialize (Hk x _ Hf).
        destruct (run (Loop.resume t x) (Loop.store m)) as [s' [v | r k']].
        -- left. cbn. split; [exact Hk | reflexivity].
        -- destruct Hk as [Hs' Hk']. right. cbn [Loop.store Loop.tasks app].
           split; [exact Hs'|].
           eexists. split; [reflexivity|]. exact (releasing_mono 1 k' Hk').
      * destruct i; cbn; right; split; try assumption; exists t; split; assumption.
  - contradiction.
Qed.

(** X12. The signup flag as mutual exclusion: whatever sequence of [signUp]
    calls and settlements a page goes through, starting with the flag clear,
    at most one signup is ever in flight, and the flag is set exactly while
    one is.  (The helper is the one of the client module, or none.) *)
Theorem signup_mutual_exclusion (helper : option (jsval -> Prog Settled))
    (s : Store) (events : list Loop.Event) :
  helper = None \/ helper = Some SupabaseClient.checkEmailExists ->
  signingUpRef s = false ->
  Forall (signup_event helper) events ->
  let m := Loop.play (Loop.boot s) events in
  List.length (Loop.tasks m) <= 1 /\
  (signingUpRef (Loop.store m) = true <-> List.length (Loop.tasks m) = 1).
Proof.
  intros Hh Hs Hall m.
  assert (Hinv : exclusive m).
  { subst m. unfold Loop.play.
    assert (H0 : exclusive (Loop.boot s)) by (left; split; [exact Hs | reflexivity]).
    revert H0. generalize (Loop.boot s).
    induction Hall as [|e events He Hall IH]; intros m0 H0; cbn [fold_left].
    - exact H0.
    - apply IH. now apply (exclusive_step helper). }
  destruct Hinv as [[Hf Ht] | [Hf (t & Ht & _)]]; rewrite Ht, Hf; cbn.
  - split; [lia|]. split; [discriminate | discriminate].
  - split; [lia|]. split; reflexivity.
Qed.

(** Two calls in a row, then the provider's answer to the first. *)
Lemma signup_mutual_exclusion_witness :
  List.length
    (Loop.tasks
       (Loop.play (Loop.boot mountedStore)
          [Loop.Call (signUp None (str "a@example.com") (str "secret") JUndefined);
           Loop.Call (signUp None (str "a@example.com") (str "secret") JUndefined);
           Loop.Settle 0 (Resolved (failed error422))])) <= 1.
Proof.
  refine (proj1 (signup_mutual_exclusion None mountedStore
            [Loop.Call (signUp None (str "a@example.com") (str "secret") JUndefined);
             Loop.Call (signUp None (str "a@example.com") (str "secret") JUndefined);
             Loop.Settle 0 (Resolved (failed error422))]
            (or_introl eq_refl) eq_refl _)).
  repeat constructor;
    exists (str "a@example.com"), (str "secret"), JUndefined; reflexivity.
Defined.

End SignupExclusion.


(* ================================================================== *)
(** * More on the outcomes of signUp *)
(* ================================================================== *)

Module SignupMore.

Import AuthContext Outcomes Further.

(** X13. [signUp] never rejects: in every world and for any helper its
    promise resolves with a [{ data, error }] pair of which one side is
    [null]. *)
Theorem signUp_always_resolves (w : World) (helper : option (jsval -> Prog Settled))
    (email password metadata : jsval) (s : Store) (n : nat) :
  result_pair (result (exec w (signUp helper email password metadata) s n)).
Proof.
  unfold result_pair, signUp. cbn.
  destruct (signingUpRef s) eqn:Hs; cbn.
  { do 2 eexists. split; [reflexivity | left; reflexivity]. }
  unfold try_catch_finally, try_finally, try_catch, call_toLowerCase.
  destruct helper as [h|].
  - unfold seq, await_call, async.
    repeat rewrite exec_bind_assoc. rewrite exec_bind.
    destruct (exec w (h email) _ n) as [sf rf hf nf]. cbn.
    destruct rf as [v|e]; cbn.
    + destruct (strict_eq v (JBool true)); cbn.
      * do 2 eexists. split; [reflexivity | left; reflexivity].
      * exec_splits;
          do 2 eexists; (split; [reflexivity | (left; reflexivity) || (right; reflexivity)]).
    + exec_splits;
        do 2 eexists; (split; [reflexivity | (left; reflexivity) || (right; reflexivity)]).
  - exec_splits;
      do 2 eexists; (split; [reflexivity | (left; reflexivity) || (right; reflexivity)]).
Qed.

Ltac pick_request :=
  repeat match goal with
  | |- In _ _ -> _ => intros [E | H]; [injection E as; subst | revert H]
  | |- False -> _ => intros []
  | |- _ \/ _ -> _ => intros [E | H]; [injection E as; subst | revert H]
  | E : Tick = AuthSignUp _ |- _ => discriminate E
  | E : Rpc _ _ = AuthSignUp _ |- _ => discriminate E
  end.

(** X14. When the provider's create-account operation answers without an
    error, [signUp] resolves with [{ data, error: null }] carrying the
    provider's data, and [loading] is false again.  The operation was called
    with the email, the password and the metadata under [options.data]. *)
Theorem signUp_success (w : World) (helper : option (jsval -> Prog Settled))
    (email password metadata : jsval) (s : Store) (n : nat) (c r : jsval) :
  helper = None \/ helper = Some SupabaseClient.checkEmailExists ->
  signingUpRef s = false ->
  let o := exec w (signUp helper email password metadata) s n in
  In (AuthSignUp c, Resolved r) (sent o) ->
  is_nullish r = false ->
  truthy (field r "error") = false ->
  result o = Resolved (found (field r "data")) /\
  loading (final o) = false /\
  c = credentials email password metadata.
Proof.
  intros Hh Hs o HIn Hr He. revert HIn. subst o.
  unfold signUp, credentials, found. cbn. rewrite Hs. cbn.
  unfold try_catch_finally, try_finally, try_catch, call_toLowerCase.
  destruct Hh as [-> | ->].
  - exec_splits; cbn; pick_request; try congruence; repeat split.
  - unfold SupabaseClient.checkEmailExists, await_call, async, try_catch.
    exec_splits; cbn; pick_request; try congruence; repeat split.
Qed.

Lemma signUp_success_witness :
  result (exec (scripted [Resolved (found (obj [("user", user1)]))])
               (signUp None (str "a@example.com") (str "secret") JUndefined)
               mountedStore 0) =
  Resolved (found (obj [("user", user1)])).
Proof.
  refine (proj1 (signUp_success (scripted [Resolved (found (obj [("user", user1)]))])
                   None (str "a@example.com") (str "secret") JUndefined mountedStore 0
                   (credentials (str "a@example.com") (str "secret") JUndefined)
                   (found (obj [("user", user1)]))
                   (or_introl eq_refl) eq_refl _ eq_refl eq_refl)).
  left. reflexivity.
Defined.

(** X15. When the provider's create-account operation rejects (a transport
    failure, say), [signUp] still resolves: with an UNKNOWN_ERROR whose
    message is the rejection's message, or the stock message when it has
    none; the message also goes to the [error] cell, and [loading] and the
    flag are lowered. *)
Theorem signUp_unknown_error (w : World) (helper : option (jsval -> Prog Settled))
    (email password metadata : jsval) (s : Store) (n : nat) (c e : jsval) :
  helper = None \/ helper = Some SupabaseClient.checkEmailExists ->
  signingUpRef s = false ->
  let o := exec w (signUp helper email password metadata) s n in
  In (AuthSignUp c, Rejected e) (sent o) ->
  result o = Resolved (unknown_error e) /\
  error (final o) = or_else (opt_prop e "message") (JStr msg_unexpected) /\
  loading (final o) = false /\
  signingUpRef (final o) = false.
Proof.
  intros Hh Hs o HIn. revert HIn. subst o.
  unfold signUp, unknown_error, failed. cbn. rewrite Hs. cbn.
  unfold try_catch_finally, try_finally, try_catch, call_toLowerCase.
  destruct Hh as [-> | ->].
  - exec_splits; cbn; pick_request; try congruence; repeat split.
  - unfold SupabaseClient.checkEmailExists, await_call, async, try_catch.
    exec_splits; cbn; pick_request; try congruence; repeat split.
Qed.

Lemma signUp_unknown_error_witness :
  error (final (exec (scripted [Rejected offline])
                     (signUp None (str "a@example.com") (str "secret") JUndefined)
                     mountedStore 0)) = str "Failed to fetch".
Proof.
  refine (proj1 (proj2 (signUp_unknown_error (scripted [Rejected offline])
                   None (str "a@example.com") (str "secret") JUndefined mountedStore 0
                   (credentials (str "a@example.com") (str "secret") JUndefined)
                   offline (or_introl eq_refl) eq_refl _))).
  left. reflexivity.
Defined.

End SignupMore.


(* ================================================================== *)
(** * More on the client module *)
(* ================================================================== *)

Module ClientMore.

Import SupabaseClient Outcomes Further.

(** X16. [checkEmailExists] never rejects and always answers with a
    boolean.  For an empty (falsy) email it answers [false] without calling
    the remote procedure; otherwise it calls it once, and answers [true] only
    when the procedure resolved, without error, with [true], ['true'] or [1];
    an error, a rejection or any other data give [false].  The store is not
    touched. *)
Theorem checkEmailExists_answer (w : World) (email : jsval) (s : Store) (n : nat) :
  let call := Rpc (lit "check_email_exists") (obj [("email_to_check", email)]) in
  let o := exec w (checkEmailExists email) s n in
  if truthy email
  then result o = Resolved (JBool (email_known (fst (w n call s)))) /\
       requests o = [call] /\
       final o = snd (w n call s)
  else result o = Resolved (JBool false) /\ requests o = [] /\ final o = s.
Proof.
  cbv zeta. unfold checkEmailExists, requests, try_catch, email_known.
  destruct (truthy email); cbn; [|repeat split].
  destruct (fst (w n _ s)) as [r|e]; cbn; [|repeat split].
  unfold prop.
  destruct (is_nullish r); cbn; [repeat split|].
  destruct (truthy (field r "error")); cbn; repeat split.
Qed.

Section Calls.

Variable supabaseUrl supabaseAnonKey : jsstring.
Variable ToString : jsval -> jsstring.
Variable JSON_stringify : jsval -> jsstring.

(** What the [catch] of [callRagBrain] returns is an instance of [Error]. *)
Lemma caught_is_error (err : jsval) (message : jsstring) :
  instanceofError (if instanceofError err then err else newError message) = true.
Proof.
  destruct (instanceofError err) eqn:E; [exact E | reflexivity].
Qed.

(** X17. [callRagBrain] never rejects: in every world and for any arguments
    its promise resolves with a [{ data, error }] pair, where either [error]
    is [null], or [data] is [null] and [error] is an instance of [Error]. *)
Theorem callRagBrain_always_resolves (w : World) (query verticalId options : jsval)
    (s : Store) (n : nat) :
  exists data error,
    result (exec w (callRagBrain supabaseUrl supabaseAnonKey ToString JSON_stringify
                      query verticalId options) s n) =
    Resolved (obj [("data", data); ("error", error)]) /\
    (error = JNull \/ (data = JNull /\ instanceofError error = true)).
Proof.
  unfold callRagBrain, try_catch, blank, requestBody, call_trim, Error_.
  exec_splits.
  all: do 2 eexists; split; [reflexivity|].
  all: try (left; reflexivity).
  all: right; split; [reflexivity|]; (reflexivity || apply caught_is_error).
Qed.

Lemma Error_or_else (v : jsval) (m : jsstring) :
  Error_ ToString (or_else v (JStr m)) = newError (String_ ToString (or_else v (JStr m))).
Proof.
  unfold or_else. destruct (truthy v) eqn:E; [|reflexivity].
  destruct v; try reflexivity; discriminate.
Qed.

(** X18. Failures the service reports.  For a call that passes validation
    and whose fetch and body both arrive: a response that is not OK gives an
    error whose message is the body's [error], or "Erreur HTTP: " followed by
    the status when the body has none; an OK response whose body has no
    truthy [success] gives the body's [error], or the stock message.  In both
    cases [data] is [null], the error is written to the console, and nothing
    else is requested. *)
Theorem service_failure (w : World) (options r response data : jsval)
    (q v : jsstring) (s s1 s2 s3 : Store) (n : nat) :
  w n AuthGetSession s = (Resolved r, s1) ->
  is_nullish r = false ->
  is_nullish (field r "data") = false ->
  truthy (field (field r "data") "session") = true ->
  trim q <> [] ->
  trim v <> [] ->
  options <> JNull ->
  (forall req, is_fetch req = true -> w (S n) req s1 = (Resolved response, s2)) ->
  is_nullish response = false ->
  w (S (S n)) (ResponseJson response) s2 = (Resolved data, s3) ->
  is_nullish data = false ->
  let o := exec w (callRagBrain supabaseUrl supabaseAnonKey ToString JSON_stringify
                     (JStr q) (JStr v) options) s n in
  let http_message :=
    String_ ToString
      (or_else (field data "error")
         (JStr (lit "Erreur HTTP: " ++ String_ ToString (field response "status")))) in
  let service_message :=
    String_ ToString (or_else (field data "error") (JStr msg_unknown_edge_error)) in
  (truthy (field response "ok") = false ->
   result o = Resolved (rag_error http_message) /\
   console (final o) =
     console s3 ++ [[str "Erreur lors de l'appel RAG:"; newError http_message]]) /\
  (truthy (field response "ok") = true ->
   truthy (field data "success") = false ->
   result o = Resolved (rag_error service_message) /\
   console (final o) =
     console s3 ++ [[str "Erreur lors de l'appel RAG:"; newError service_message]]) /\
  map is_fetch (requests o) = [false; true; false].
Proof.
  intros Hw Hr Hd Hs Hq Hv Ho Hf Hresp Hj Hdata o http_message service_message.
  subst o http_message service_message.
  unfold callRagBrain, requests, try_catch. cbn. rewrite Hw. cbn.
  unfold prop. rewrite Hr. cbn. rewrite Hd. cbn. rewrite Hs. cbn.
  rewrite (blank_of_trim_cons q Hq). cbn.
  rewrite (blank_of_trim_cons v Hv). cbn.
  fold (defaulted options).
  rewrite (QueryDispatcher.defaulted_not_nullish options Ho). cbn.
  rewrite Hf by reflexivity. cbn. rewrite Hresp. cbn.
  rewrite Hj. cbn.
  destruct (truthy (field response "ok")) eqn:Hok; cbn; rewrite Hdata; cbn.
  - split; [intros; discriminate|].
    destruct (truthy (field data "success")) eqn:Hsucc; cbn.
    + split; [intros _ H; discriminate | reflexivity].
    + rewrite Error_or_else. cbn. split; [|reflexivity].
      intros _ _. split; reflexivity.
  - rewrite Error_or_else. cbn. split; [|split; [intros; discriminate | reflexivity]].
    intros _. split; reflexivity.
Qed.

(** X19. A fetch that rejects (the network is down, say) does not make
    [callRagBrain] reject: the call resolves with [data] [null] and, as
    [error], the rejection itself when it is an instance of [Error], and a
    new [Error] made of its string form otherwise. *)
Theorem transport_failure (w : World) (options r e : jsval)
    (q v : jsstring) (s s1 s2 : Store) (n : nat) :
  w n AuthGetSession s = (Resolved r, s1) ->
  is_nullish r = false ->
  is_nullish (field r "data") = false ->
  truthy (field (field r "data") "session") = true ->
  trim q <> [] ->
  trim v <> [] ->
  options <> JNull ->
  (forall req, is_fetch req = true -> w (S n) req s1 = (Rejected e, s2)) ->
  let o := exec w (callRagBrain supabaseUrl supabaseAnonKey ToString JSON_stringify
                     (JStr q) (JStr v) options) s n in
  result o =
    Resolved (failed (if instanceofError e then e else newError (String_ ToString e))) /\
  console (final o) = console s2 ++ [[str "Erreur lors de l'appel RAG:"; e]] /\
  map is_fetch (requests o) = [false; true].
Proof.
  intros Hw Hr Hd Hs Hq Hv Ho Hf o. subst o.
  unfold callRagBrain, requests, try_catch. cbn. rewrite Hw. cbn.
  unfold prop. rewrite Hr. cbn. rewrite Hd. cbn. rewrite Hs. cbn.
  rewrite (blank_of_trim_cons q Hq). cbn.
  rewrite (blank_of_trim_cons v Hv). cbn.
  fold (defaulted options).
  rewrite (QueryDispatcher.defaulted_not_nullish options Ho). cbn.
  rewrite Hf by reflexivity. cbn. repeat split.
Qed.

End Calls.

(** A response with status 500 and an empty body. *)
Lemma service_failure_witness :
  map is_fetch
    (requests (exec (scripted [Resolved (sessionReply session1); Resolved errorResponse;
                               Resolved emptyBody])
                    (callRagBrain sampleUrl sampleKey sampleToString sampleStringify
                       (str "What is X?") (str "audit") JUndefined)
                    mountedStore 0)) = [false; true; false].
Proof.
  refine (proj2 (proj2 (service_failure sampleUrl sampleKey sampleToString sampleStringify
                   (scripted [Resolved (sessionReply session1); Resolved errorResponse;
                              Resolved emptyBody])
                   JUndefined (sessionReply session1) errorResponse emptyBody
                   (lit "What is X?") (lit "audit")
                   mountedStore mountedStore mountedStore mountedStore 0
                   eq_refl eq_refl eq_refl eq_refl _ _ _ (fun _ _ => eq_refl)
                   eq_refl eq_refl eq_refl)));
    discriminate.
Defined.

(** The network down at the fetch. *)
Lemma transport_failure_witness :
  result (exec (scripted [Resolved (sessionReply session1); Rejected offline])
               (callRagBrain sampleUrl sampleKey sampleToString sampleStringify
                  (str "What is X?") (str "audit") JUndefined)
               mountedStore 0) =
  Resolved (failed offline).
Proof.
  refine (proj1 (transport_failure sampleUrl sampleKey sampleToString sampleStringify
                   (scripted [Resolved (sessionReply session1); Rejected offline])
                   JUndefined (sessionReply session1) offline
                   (lit "What is X?") (lit "audit")
                   mountedStore mountedStore mountedStore 0
                   eq_refl eq_refl eq_refl eq_refl _ _ _ (fun _ _ => eq_refl)));
    discriminate.
Defined.

End ClientMore.


(* ================================================================== *)
(** * The context value and the route guards *)
(* ================================================================== *)

Module Guards.

Import AuthContext Outcomes Further AuthValue Routes.

Lemma field_of_falsy (v : jsval) (k : string) :
  truthy v = false -> opt_prop v k = JUndefined.
Proof.
  unfold opt_prop. destruct v; cbn; try reflexivity; discriminate.
Qed.

(** X20. The derived flags are ordered: a super admin is an org admin, and
    whoever is an org admin or is onboarded has a profile.  So a state
    without profile has none of the three. *)
Theorem flags_are_ordered (s : Store) :
  let v := value s in
  (isSuperAdmin v = true -> isOrgAdmin v = true) /\
  (isOrgAdmin v = true -> hasProfile v = true) /\
  (isOnboarded v = true -> hasProfile v = true).
Proof.
  cbn. split; [|split].
  - intros ->. apply orb_true_r.
  - destruct (truthy (profile s)) eqn:E; [reflexivity|].
    rewrite (field_of_falsy _ "app_role" E). discriminate.
  - destruct (truthy (profile s)) eqn:E; [reflexivity|].
    rewrite (field_of_falsy _ "business_role" E). discriminate.
Qed.

Lemma flags_are_ordered_witness :
  isOrgAdmin (value (setProfile adminProfile mountedStore)) = true /\
  hasProfile (value (setProfile adminProfile mountedStore)) = true.
Proof.
  pose proof (flags_are_ordered (setProfile adminProfile mountedStore)) as (H1 & H2 & _).
  split; [exact (H1 eq_refl) | exact (H2 (H1 eq_refl))].
Defined.

(** X21. When each guard lets its children through, in terms of the state:
    the protected routes need a settled state, a session and an onboarded
    profile; the admin route needs an admin role on top; the onboarding route
    needs a session and a profile that is not onboarded. *)
Theorem guards_let_through (s : Store) :
  let v := value s in
  (ProtectedRoute v = Children <->
   loading s = false /\ isAuthenticated v = true /\ isOnboarded v = true) /\
  (AdminRoute v = Children <->
   loading s = false /\ isAuthenticated v = true /\ isOnboarded v = true /\
   isOrgAdmin v = true) /\
  (OnboardingRoute v = Children <->
   loading s = false /\ isAuthenticated v = true /\ hasProfile v = true /\
   isOnboarded v = false) /\
  (AdminRoute v = Children -> ProtectedRoute v = Children).
Proof.
  intros v. destruct (flags_are_ordered s) as (_ & _ & Hon). fold v in Hon.
  unfold ProtectedRoute, AdminRoute, OnboardingRoute.
  change (v_loading v) with (loading s).
  destruct (loading s), (isAuthenticated v), (hasProfile v), (isOnboarded v),
    (isOrgAdmin v); cbn; repeat split; intros; try discriminate; try tauto;
    try (destruct H as (? & ? & ?); discriminate);
    try (specialize (Hon eq_refl); discriminate);
    intuition discriminate.
Qed.

(** X22. The guards agree on where to send a visitor: the protected guard
    redirects to the onboarding page exactly when the onboarding guard lets
    its children through, the onboarding guard redirects to the dashboard
    exactly when the protected guard lets its children through, and the
    public guard redirects to either page on the same conditions.  A state
    with a session and no profile is kept on the public pages and gets the
    missing-profile screen on the others. *)
Theorem guards_agree (s : Store) :
  let v := value s in
  (ProtectedRoute v = Navigate (lit "/onboarding") false <-> OnboardingRoute v = Children) /\
  (OnboardingRoute v = Navigate (lit "/dashboard") false <-> ProtectedRoute v = Children) /\
  (PublicRoute v = Navigate (lit "/onboarding") false <-> OnboardingRoute v = Children) /\
  (PublicRoute v = Navigate (lit "/dashboard") false <-> ProtectedRoute v = Children) /\
  (ProtectedRoute v = ProfileErrorScreen <->
   PublicRoute v = Children /\ isAuthenticated v = true /\ loading s = false).
Proof.
  intros v. unfold ProtectedRoute, OnboardingRoute, PublicRoute.
  change (v_loading v) with (loading s).
  destruct (loading s), (isAuthenticated v), (hasProfile v), (isOnboarded v);
    cbn; repeat split; intros; try discriminate; try reflexivity;
    try (destruct H as (? & ? & ?); discriminate).
Qed.

(** X23. After a sign-out event every guarded route sends the visitor to
    the login page, whatever the state was, and the public routes are
    shown. *)
Theorem signed_out_goes_to_login (s : Store) :
  mounted s = true ->
  let v := value (fst (run (onAuthStateChange (str "SIGNED_OUT") JNull) s)) in
  ProtectedRoute v = Navigate (lit "/login") true /\
  OnboardingRoute v = Navigate (lit "/login") true /\
  AdminRoute v = Navigate (lit "/login") true /\
  PublicRoute v = Children.
Proof.
  intros Hm v. subst v.
  rewrite (AuthStateMachine.signed_out_clears s Hm). repeat split.
Qed.

Lemma signed_out_goes_to_login_witness :
  ProtectedRoute
    (value (fst (run (onAuthStateChange (str "SIGNED_OUT") JNull)
                     (setProfile adminProfile (setSession session1 mountedStore))))) =
  Navigate (lit "/login") true.
Proof.
  apply (signed_out_goes_to_login
           (setProfile adminProfile (setSession session1 mountedStore))).
  reflexivity.
Defined.

(** X24. The check of [useAuth] cannot tell a component outside any provider:
    the context is created with the default [{}], which is truthy, so
    without a provider [useAuth] returns [{}] and throws nothing; it throws
    only under a provider whose value is falsy.  A guard outside any provider
    therefore reads every flag as [undefined]: the guarded routes redirect to
    the login page and the public route shows its children. *)
Theorem useAuth_outside_provider :
  (forall provided,
     (exists e, useAuth provided = throw e) <->
     (exists v, provided = Some v /\ truthy v = false)) /\
  useAuth None = return_ (obj []) /\
  ProtectedRoute (flags_of (useContext None)) = Navigate (lit "/login") true /\
  OnboardingRoute (flags_of (useContext None)) = Navigate (lit "/login") true /\
  AdminRoute (flags_of (useContext None)) = Navigate (lit "/login") true /\
  PublicRoute (flags_of (useContext None)) = Children.
Proof.
  split; [|repeat split].
  intros provided. unfold useAuth, useContext. split.
  - intros [e He]. destruct provided as [v|].
    + exists v. split; [reflexivity|].
      destruct (truthy v); [discriminate He | reflexivity].
    + discriminate He.
  - intros (v & -> & Hv). rewrite Hv. eexists. reflexivity.
Qed.

End Guards.


(* ================================================================== *)
(** * The session operations of the provider *)
(* ================================================================== *)

Module SessionOperations.

Import AuthContext Outcomes Further AuthOperations AuthValue Routes.

Ltac unfold_operation :=
  unfold finish, after, signIn, signInWithGoogle, resetPassword, updatePassword,
    signOut, settled, try_catch_finally, try_finally, try_catch, prop, caught.

Ltac by_cases_on x :=
  destruct x as [r|e]; cbn;
  [ destruct (is_nullish r) eqn:Hr; cbn;
    [| destruct (truthy (field r "error")) eqn:He; cbn;
       [rewrite (ProfileLoaderMore.truthy_not_nullish _ He); cbn|] ]
  | destruct (is_nullish e) eqn:Hn; cbn ].

(** X25. [signIn], [signInWithGoogle], [resetPassword] and [updatePassword]
    all end the same way once their operation has settled.  Without error
    they resolve with [{ data, error: null }] and leave the error cell as it
    is; with an error (the answer's [error], a rejection, or an answer that is
    [null]) they store its message and resolve with [{ data: null, error }].
    They reject only when the operation rejected with [null] or [undefined],
    and then with a [TypeError].  In every case [loading] ends [false] and no
    other cell is written. *)
Theorem pair_operation_outcome (origin : jsstring) (c : Awaiting) (x : Settled) (s : Store) :
  pair_operation origin c ->
  finish c x s =
  match caught x with
  | None =>
      (setLoading false s,
       Done (Resolved (found (match x with Resolved r => field r "data" | Rejected _ => JUndefined end))))
  | Some err =>
      if is_nullish err
      then (setLoading false s,
            Done (Rejected (TypeError "Cannot read properties of null or undefined")))
      else (setLoading false (setError (field err "message") s),
            Done (Resolved (failed err)))
  end.
Proof.
  intros [(email & password & ->) | [-> | [(email & ->) | (newPassword & ->)]]];
    unfold_operation; by_cases_on x; reflexivity.
Qed.

Lemma pair_operation_outcome_witness :
  finish (signIn (str "a@example.com") (str "secret")) (Resolved wrong_password) mountedStore =
  (setLoading false (setError (str "Invalid login credentials") mountedStore),
   Done (Resolved (failed (JObj true [(lit "message", str "Invalid login credentials")])))).
Proof.
  rewrite (pair_operation_outcome sampleOrigin
             (signIn (str "a@example.com") (str "secret")) (Resolved wrong_password)
             mountedStore).
  - reflexivity.
  - left. do 2 eexists. reflexivity.
Defined.

(** X26. [signOut], once the provider has answered: without error it clears
    user, session, profile and organization and the profile-loaded flag, and
    resolves with [{ error: null }]; with an error it keeps all of them,
    stores the message and resolves with [{ error }].  It never touches the
    profile-loading flag or the signup flag, and [loading] ends [false] in
    every case, also in the one where it rejects (a rejection with [null] or
    [undefined]). *)
Theorem signOut_outcome (x : Settled) (s : Store) :
  exists s' res,
    finish signOut x s = (s', Done res) /\
    loading s' = false /\
    loadingProfileRef s' = loadingProfileRef s /\
    signingUpRef s' = signingUpRef s /\
    mounted s' = mounted s /\ timers s' = timers s /\
    match caught x with
    | None =>
        res = Resolved (obj [("error", JNull)]) /\
        user s' = JNull /\ session s' = JNull /\ profile s' = JNull /\
        organization s' = JNull /\ profileLoadedRef s' = false /\
        error s' = error s
    | Some err =>
        same_account s s' /\
        if is_nullish err
        then res = Rejected (TypeError "Cannot read properties of null or undefined") /\
             error s' = error s
        else res = Resolved (obj [("error", err)]) /\
             error s' = field err "message"
    end.
Proof.
  unfold_operation; by_cases_on x; do 2 eexists; (split; [reflexivity|]);
    cbn; unfold same_account; cbn; repeat split.
Qed.

(** X27. After a [signOut] that succeeded the guards send the visitor to the
    login page without waiting for the provider's sign-out event, and the
    retry of the missing-profile screen ([refreshProfile]) does nothing: it
    resolves at once, asks for nothing and changes nothing. *)
Theorem signed_out_at_once (x : Settled) (s : Store) :
  caught x = None ->
  let s' := fst (finish signOut x (started signOut s)) in
  error s' = JNull /\
  ProtectedRoute (value s') = Navigate (lit "/login") true /\
  OnboardingRoute (value s') = Navigate (lit "/login") true /\
  AdminRoute (value s') = Navigate (lit "/login") true /\
  PublicRoute (value s') = Children /\
  run refreshProfile s' = (s', Done (Resolved JUndefined)).
Proof.
  intros Hc s'. subst s'. revert Hc.
  unfold_operation; by_cases_on x; intros Hc; try discriminate.
  repeat split.
Qed.

Lemma signed_out_at_once_witness :
  ProtectedRoute
    (value (fst (finish signOut (Resolved signed_out_ok)
                   (started signOut (setProfile adminProfile (setSession session1 mountedStore)))))) =
  Navigate (lit "/login") true.
Proof.
  apply (signed_out_at_once (Resolved signed_out_ok)
           (setProfile adminProfile (setSession session1 mountedStore))).
  reflexivity.
Defined.

End SessionOperations.


(* ================================================================== *)
(** * The remote procedures of the client module *)
(* ================================================================== *)

Module RemoteProcedures.

Import SupabaseRpc Outcomes Further.

(** X28. [getMyProfile] and [completeOnboarding] make one remote call each
    and differ in how they treat an error the call reports: [getMyProfile]
    swallows it and resolves with [null], [completeOnboarding] rejects with
    it.  Without error both resolve with the [data] of the answer.  Neither
    has a [catch]: a rejected call rejects them with the same reason.  A
    [bio] left out is sent as [null]. *)
Theorem rpc_helpers (w : World) (businessRole bio : jsval) (s : Store) (n : nat) :
  let call1 := Rpc (lit "get_my_profile") JUndefined in
  let call2 := Rpc (lit "complete_onboarding")
                   (obj [("p_business_role", businessRole);
                         ("p_bio", if strict_eq bio JUndefined then JNull else bio)]) in
  let o1 := exec w getMyProfile s n in
  let o2 := exec w (completeOnboarding businessRole bio) s n in
  requests o1 = [call1] /\ final o1 = snd (w n call1 s) /\
  requests o2 = [call2] /\ final o2 = snd (w n call2 s) /\
  result o1 =
    match fst (w n call1 s) with
    | Rejected e => Rejected e
    | Resolved r =>
        match caught (Resolved r) with
        | None => Resolved (field r "data")
        | Some err => if is_nullish r then Rejected err else Resolved JNull
        end
    end /\
  result o2 =
    match fst (w n call2 s) with
    | Rejected e => Rejected e
    | Resolved r =>
        match caught (Resolved r) with
        | None => Resolved (field r "data")
        | Some err => Rejected err
        end
    end.
Proof.
  cbv zeta. unfold getMyProfile, completeOnboarding, requests, caught, prop.
  assert (Hbio : match bio with JUndefined => JNull | _ => bio end =
                 if strict_eq bio JUndefined then JNull else bio)
    by (destruct bio; reflexivity).
  rewrite Hbio. clear Hbio.
  destruct (w n (Rpc (lit "get_my_profile") JUndefined) s) as [x1 s1] eqn:E1.
  destruct (w n (Rpc (lit "complete_onboarding") _) s) as [x2 s2] eqn:E2.
  cbn. rewrite E1, E2. cbn.
  destruct x1 as [r1|e1], x2 as [r2|e2]; cbn;
    try (destruct (is_nullish r1) eqn:N1; cbn);
    try (destruct (truthy (field r1 "error")) eqn:T1; cbn);
    try (destruct (is_nullish r2) eqn:N2; cbn);
    try (destruct (truthy (field r2 "error")) eqn:T2; cbn);
    repeat split.
Qed.

End RemoteProcedures.
